(** * Middleware pipeline of the AdonisJS middleware demo

    A shallow embedding of the request pipeline: the request, the
    request context bag, the response and the process-lifetime rate-limit
    table are one state record threaded through the middleware; a
    middleware receives the state and the rest of the chain ([next]) and
    either returns a final state or propagates a thrown error. *)

From Stdlib Require Import ZArith List Ascii.
From stdpp Require Import base gmap strings pretty.
Import ListNotations.
Open Scope Z_scope.
Open Scope string_scope.
Local Set Warnings "-register-all".

(** ** JSON values as handlers build them *)

Inductive json : Type :=
| JNull
| JBool (b : bool)
| JNum (z : Z)
| JStr (s : string)
| JArr (l : list json)
| JObj (fs : list (string * json)).

(** [{ ...obj, k: v }]: an existing key keeps its position and takes the
    new value, a new key is appended. *)
Fixpoint obj_set (k : string) (v : json) (fs : list (string * json))
  : list (string * json) :=
  match fs with
  | [] => [(k, v)]
  | (k', v') :: fs' =>
      if String.eqb k k' then (k, v) :: fs' else (k', v') :: obj_set k v fs'
  end.

(** The own properties [{ ...v }] copies from a truthy value of type
    ["object"]: an object's fields, an array's indexed elements. *)
Definition spread (v : json) : option (list (string * json)) :=
  match v with
  | JObj fs => Some fs
  | JArr l => Some (zip (map (fun i => pretty (N.of_nat i)) (seq 0 (length l))) l)
  | _ => None
  end.

Fixpoint assoc {A} (k : string) (l : list (string * A)) : option A :=
  match l with
  | [] => None
  | (k', v) :: l' => if String.eqb k k' then Some v else assoc k l'
  end.

(** ** Data model *)

Record User := mkUser {
  id : Z; name : string; role : string; email : string }.

Record FeatureCtx := mkFeatureCtx {
  f_name : string; f_enabled : bool; f_rolloutId : Z; f_rolloutPercentage : Z }.

Record DeviceInfo := mkDeviceInfo {
  d_type : string; d_browser : string; d_os : string;
  d_isBot : bool; d_isMobile : bool; d_isTablet : bool;
  d_userAgent : string; d_parsed_at : string }.

(** The ad hoc [request.ctx] bag: every field is optional. *)
Record Context := mkContext {
  c_user : option User;
  c_isAdmin : option bool;
  c_adminPermissions : option (list string);
  c_feature : option FeatureCtx;
  c_device : option DeviceInfo;
  c_requestId : option string }.

Definition empty_ctx : Context := mkContext None None None None None None.

(** Header names are stored lower-case, as [request.header] looks them up. *)
Record Request := mkRequest {
  method : string;
  url : string;
  ip : string;
  headers : list (string * string);
  inputs : list (string * json);
  body : json;
  body_throws : bool }.

Record Response := mkResponse {
  status : Z;
  rheaders : list (string * string);
  rbody : option json }.

Definition initial_response : Response := mkResponse 200 [] None.

(** One entry of [RateLimit.requests]. *)
Record Entry := mkEntry { count : Z; resetTime : Z }.

(** Values the code reads from the environment during one request:
    [Date.now()], the [Math.random()] digits of the request id, the
    formatted [processingTime.toFixed(2)] and [new Date().toISOString()]. *)
Record Env := mkEnv {
  now_ms : Z; random_str : string; elapsed : string; iso_now : string }.

Record State := mkState {
  req : Request;
  ctx : Context;
  resp : Response;
  requests : gmap string Entry;
  env : Env }.

Inductive Outcome : Type :=
| Done (s : State)
| Threw (s : State).

Definition Next := State -> Outcome.
Definition Middleware := State -> Next -> Outcome.

(** [await next()] followed by the code after it. *)
Definition after (o : Outcome) (k : State -> State) : Outcome :=
  match o with
  | Done s => Done (k s)
  | Threw s => Threw s
  end.

(** A chain: middleware in order, then the route handler. *)
Definition chain (mws : list Middleware) (handler : Next) : Next :=
  fold_right (fun mw k => fun s => mw s k) handler mws.

(** ** State accessors and the framework's response API *)

Definition set_ctx (c : Context) (s : State) : State :=
  mkState (req s) c (resp s) (requests s) (env s).
Definition set_resp (r : Response) (s : State) : State :=
  mkState (req s) (ctx s) r (requests s) (env s).
Definition set_requests (m : gmap string Entry) (s : State) : State :=
  mkState (req s) (ctx s) (resp s) m (env s).

Definition req_header (k : string) (r : Request) : option string :=
  assoc k (headers r).
(** [request.input(k)]: what the query string or the JSON body holds,
    a string, a number, an array ([?k=a&k=b]) or any other JSON value. *)
Definition req_input (k : string) (r : Request) : option json :=
  assoc k (inputs r).

Definition hset (k v : string) (hs : list (string * string)) :=
  app (List.filter (fun p => negb (String.eqb k (fst p))) hs) [(k, v)].

(** [response.header(k, v)] *)
Definition header (k v : string) (s : State) : State :=
  let r := resp s in
  set_resp (mkResponse (status r) (hset k v (rheaders r)) (rbody r)) s.

(** [response.status(n)] *)
Definition set_status (n : Z) (s : State) : State :=
  let r := resp s in set_resp (mkResponse n (rheaders r) (rbody r)) s.

(** [response.json(b)] / [response.send(b)] *)
Definition set_json (b : json) (s : State) : State :=
  let r := resp s in set_resp (mkResponse (status r) (rheaders r) (Some b)) s.

Definition status_json (n : Z) (b : json) (s : State) : State :=
  set_json b (set_status n s).

Definition resp_header (k : string) (s : State) : option string :=
  assoc k (rheaders (resp s)).

(** [response.getBody()] spread into fields, when it is an object. *)
Definition body_fields (s : State) : option (list (string * json)) :=
  match rbody (resp s) with Some b => spread b | None => None end.

(** JavaScript truthiness of an optional string. *)
Definition truthy (o : option string) : bool :=
  match o with Some v => negb (String.eqb v "") | None => false end.

(** JavaScript truthiness of a JSON value ([undefined] is [None]). *)
Definition js_truthy (v : json) : bool :=
  match v with
  | JNull => false
  | JBool b => b
  | JNum z => negb (Z.eqb z 0)
  | JStr t => negb (String.eqb t "")
  | JArr _ | JObj _ => true
  end.

Definition jtruthy (o : option json) : bool :=
  match o with Some v => js_truthy v | None => false end.

(** [a || b] *)
Definition js_or (a b : option json) : option json :=
  if jtruthy a then a else b.

(** [s.replace(pat, rep)] with a string pattern: the first occurrence only. *)
Fixpoint replace_first (pat rep s : string) : string :=
  if String.prefix pat s
  then rep ++ String.substring (String.length pat) (String.length s) s
  else match s with
       | EmptyString => s
       | String c s' => String c (replace_first pat rep s')
       end.

(** ** Auth (app/Middleware/Auth.ts) *)

Module Auth.

Definition validTokens : list string :=
  ["user-token-123"; "admin-token-456"; "demo-token-789"].

Definition john : User := mkUser 1 "John Doe" "user" "john@example.com".
Definition jane : User := mkUser 2 "Jane Admin" "admin" "jane@example.com".
Definition demo : User := mkUser 3 "Demo User" "demo" "demo@example.com".
Definition guest : User := mkUser 0 "Unknown" "guest" "".

Definition getUserFromToken (token : string) : User :=
  match assoc token [("user-token-123", john); ("admin-token-456", jane);
                     ("demo-token-789", demo)] with
  | Some u => u
  | None => guest
  end.

Definition err_no_token : json :=
  JObj [("error", JStr "Authentication required");
        ("message", JStr "Please provide an authentication token");
        ("hint", JStr "Add Authorization header or token parameter")].

Definition err_invalid : json :=
  JObj [("error", JStr "Invalid token");
        ("message", JStr "The provided token is not valid")].

(** [token.replace(...)] exists on strings only: a truthy token of any
    other type makes it throw a TypeError. *)
Definition handle : Middleware := fun s next =>
  let token := js_or (option_map JStr (req_header "authorization" (req s)))
                     (req_input "token" (req s)) in
  match token with
  | Some v =>
      if negb (js_truthy v) then Done (status_json 401 err_no_token s) else
      match v with
      | JStr t =>
          let cleanToken := replace_first "Bearer " "" t in
          if negb (existsb (String.eqb cleanToken) validTokens)
          then Done (status_json 401 err_invalid s)
          else
            let userData := getUserFromToken cleanToken in
            let c := ctx s in
            next (set_ctx (mkContext (Some userData) (c_isAdmin c)
                     (c_adminPermissions c) (c_feature c) (c_device c)
                     (c_requestId c)) s)
      | _ => Threw s
      end
  | None => Done (status_json 401 err_no_token s)
  end.

End Auth.

(** ** Admin (app/Middleware/Admin.ts) *)

Module Admin.

Definition adminPermissions : list string :=
  ["read_all_users"; "delete_users"; "modify_system_settings"; "view_analytics"].

Definition err_no_user : json :=
  JObj [("error", JStr "Authentication required");
        ("message", JStr "User must be authenticated before checking admin access");
        ("hint", JStr "Make sure Auth middleware runs before Admin middleware")].

Definition err_forbidden (u : User) : json :=
  JObj [("error", JStr "Insufficient privileges");
        ("message", JStr "Admin access required");
        ("user", JObj [("name", JStr (name u)); ("role", JStr (role u));
                       ("requiredRole", JStr "admin")])].

Definition handle : Middleware := fun s next =>
  match c_user (ctx s) with
  | None => Done (status_json 401 err_no_user s)
  | Some user =>
      if negb (String.eqb (role user) "admin")
      then Done (status_json 403 (err_forbidden user) s)
      else
        let c := ctx s in
        next (set_ctx (mkContext (c_user c) (Some true) (Some adminPermissions)
                 (c_feature c) (c_device c) (c_requestId c)) s)
  end.

End Admin.

(** ** Global middleware (start/kernel.ts) *)

(** RequestLogger (its class sits in app/Middleware/Auth.ts): console
    output, and for POST, PUT and PATCH the [request.body()] it logs before
    [next()], which fails when the body cannot be read. *)
Definition body_read_fails (r : Request) : bool :=
  existsb (String.eqb (method r)) ["POST"; "PUT"; "PATCH"] && body_throws r.

Definition RequestLogger : Middleware := fun s next =>
  if body_read_fails (req s) then Threw s else next s.

(** The framework's BodyParser: the parsed body is the request's [body]
    field of this model, so the middleware itself only passes on. *)
Definition BodyParser : Middleware := fun s next => next s.

Module Cors.

Definition allowedOrigins : list string :=
  ["http://localhost:3000"; "http://localhost:3001"; "https://yourdomain.com"].
Definition allowedMethods : string := "GET, POST, PUT, DELETE, PATCH, OPTIONS".
Definition allowedHeaders : string :=
  "Content-Type, Authorization, X-Requested-With, Accept, Origin".

Definition setCorsHeaders (s : State) : State :=
  let origin := req_header "origin" (req s) in
  let s1 :=
    match origin with
    | Some o =>
        if truthy origin && existsb (String.eqb o) allowedOrigins
        then header "Access-Control-Allow-Origin" o s
        else if negb (truthy origin)
        then header "Access-Control-Allow-Origin" "*" s
        else s
    | None => header "Access-Control-Allow-Origin" "*" s
    end in
  header "Access-Control-Allow-Credentials" "true"
    (header "Access-Control-Allow-Headers" allowedHeaders
       (header "Access-Control-Allow-Methods" allowedMethods s1)).

Definition handle : Middleware := fun s next =>
  if String.eqb (method (req s)) "OPTIONS"
  then Done (status_json 204 (JStr "")
               (header "Access-Control-Max-Age" "86400" (setCorsHeaders s)))
  else after (next s) setCorsHeaders.

End Cors.

Module SecurityHeaders.

Definition add_headers (s : State) : State :=
  header "X-Powered-By" "AdonisJS-Middleware-Demo"
  (header "Permissions-Policy" "geolocation=(), microphone=(), camera=()"
  (header "Strict-Transport-Security" "max-age=31536000; includeSubDomains"
  (header "Content-Security-Policy" "default-src 'self'"
  (header "Referrer-Policy" "strict-origin-when-cross-origin"
  (header "X-XSS-Protection" "1; mode=block"
  (header "X-Content-Type-Options" "nosniff"
  (header "X-Frame-Options" "DENY" s))))))).

Definition handle : Middleware := fun s next => after (next s) add_headers.

End SecurityHeaders.

Definition globals : list Middleware :=
  [RequestLogger; Cors.handle; SecurityHeaders.handle; BodyParser].

(** ** DeviceDetector (unnamed/part_000, app/Middleware/DeviceDetector) *)

Module DeviceDetector.

(** [toLowerCase] on the ASCII range. *)
Definition lower_char (c : ascii) : ascii :=
  let n := nat_of_ascii c in
  if (65 <=? n)%nat && (n <=? 90)%nat then ascii_of_nat (n + 32) else c.

Fixpoint toLowerCase (s : string) : string :=
  match s with
  | EmptyString => EmptyString
  | String c s' => String (lower_char c) (toLowerCase s')
  end.

(** [s.includes(sub)] *)
Fixpoint includes (sub s : string) : bool :=
  String.prefix sub s ||
  match s with EmptyString => false | String _ s' => includes sub s' end.

Definition includes_any (subs : list string) (s : string) : bool :=
  existsb (fun sub => includes sub s) subs.

(** [/android(?!.*mobile)/]: an occurrence of "android" with no "mobile"
    after it. *)
Fixpoint android_not_mobile (s : string) : bool :=
  (String.prefix "android" s &&
   negb (includes "mobile" (String.substring 7 (String.length s) s))) ||
  match s with EmptyString => false | String _ s' => android_not_mobile s' end.

(** [/netcast.tv/]: "netcast", any character, "tv". *)
Fixpoint netcast_tv (s : string) : bool :=
  (String.prefix "netcast" s &&
   String.prefix "tv" (String.substring 8 (String.length s) s) &&
   (8 <=? String.length s)%nat) ||
  match s with EmptyString => false | String _ s' => netcast_tv s' end.

Definition parseUserAgent (userAgent iso : string) : DeviceInfo :=
  let ua := toLowerCase userAgent in
  let type :=
    if includes_any ["mobile"; "android"; "iphone"; "ipod"; "blackberry";
                     "iemobile"; "opera mini"] ua then "mobile"
    else if includes_any ["tablet"; "ipad"] ua || android_not_mobile ua
    then "tablet"
    else if includes_any ["smart-tv"; "smarttv"; "googletv"; "appletv";
                          "hbbtv"; "pov_tv"] ua || netcast_tv ua
    then "tv" else "desktop" in
  let browser :=
    if includes "chrome" ua && negb (includes "edge" ua) then "chrome"
    else if includes "firefox" ua then "firefox"
    else if includes "safari" ua && negb (includes "chrome" ua) then "safari"
    else if includes "edge" ua then "edge"
    else if includes "opera" ua then "opera"
    else if includes "msie" ua || includes "trident" ua
    then "internet_explorer" else "unknown" in
  let os :=
    if includes "windows" ua then "windows"
    else if includes "mac os" ua then "macos"
    else if includes "linux" ua then "linux"
    else if includes "android" ua then "android"
    else if includes "ios" ua || includes "iphone" ua || includes "ipad" ua
    then "ios" else "unknown" in
  let isBot := includes_any ["bot"; "crawler"; "spider"; "scraper"]
                 (toLowerCase userAgent) in
  mkDeviceInfo type browser os isBot (String.eqb type "mobile")
    (String.eqb type "tablet") (String.substring 0 100 userAgent) iso.

Definition device_json (d : DeviceInfo) : json :=
  JObj [("type", JStr (d_type d)); ("browser", JStr (d_browser d));
        ("os", JStr (d_os d)); ("isBot", JBool (d_isBot d));
        ("isMobile", JBool (d_isMobile d)); ("isTablet", JBool (d_isTablet d));
        ("userAgent", JStr (d_userAgent d)); ("parsed_at", JStr (d_parsed_at d))].

Definition handle : Middleware := fun s next =>
  let userAgent := match req_header "user-agent" (req s) with
                   | Some u => u | None => "" end in
  let deviceInfo := parseUserAgent userAgent (iso_now (env s)) in
  let c := ctx s in
  let s1 := set_ctx (mkContext (c_user c) (c_isAdmin c) (c_adminPermissions c)
                       (c_feature c) (Some deviceInfo) (c_requestId c)) s in
  let s2 := header "X-OS" (d_os deviceInfo)
             (header "X-Browser" (d_browser deviceInfo)
               (header "X-Device-Type" (d_type deviceInfo) s1)) in
  after (next s2) (fun t =>
    match body_fields t with
    | Some fs =>
        if String.eqb (d_type deviceInfo) "mobile"
        then set_json (JObj (obj_set "device_info" (device_json deviceInfo)
                              (obj_set "mobile_optimized" (JBool true) fs))) t
        else t
    | None => t
    end).

End DeviceDetector.

(** ** DemoController (app/Controllers/Http/DemoController.ts)

    An [undefined] field of a handler's object is written [JNull]; reading a
    property of an undefined [user] throws. The emoji prefixes of the
    messages are left out. *)

Module DemoController.

Definition protected : Next := fun s =>
  match c_user (ctx s) with
  | None => Threw s
  | Some user =>
      Done (set_json (JObj [
        ("message", JStr "This is a protected endpoint");
        ("description", JStr "Authentication required to access this");
        ("user", JObj [("name", JStr (name user)); ("email", JStr (email user));
                       ("role", JStr (role user))]);
        ("data", JObj [("method", JStr (method (req s))); ("url", JStr (url (req s)));
                       ("authenticated_at", JStr (iso_now (env s)))])]) s)
  end.

Definition admin : Next := fun s =>
  match c_user (ctx s) with
  | None => Threw s
  | Some user =>
      let permissions := match c_adminPermissions (ctx s) with
                         | Some p => p | None => [] end in
      Done (set_json (JObj [
        ("message", JStr "This is an admin-only endpoint");
        ("description", JStr "Requires admin role to access");
        ("admin", JObj [("name", JStr (name user)); ("role", JStr (role user));
                        ("permissions", JArr (map JStr permissions))]);
        ("system_info", JObj [("server_time", JStr (iso_now (env s)));
                              ("total_users", JNum 42);
                              ("active_sessions", JNum 15)])]) s)
  end.

Definition rateLimited : Next := fun s =>
  Done (set_json (JObj [
    ("message", JStr "This endpoint has strict rate limiting");
    ("description", JStr "Only 10 requests per minute allowed");
    ("request_info", JObj [("ip", JStr (ip (req s))); ("method", JStr (method (req s)));
                           ("url", JStr (url (req s)))]);
    ("hint", JStr "Try making multiple requests quickly to see rate limiting in action")]) s).

Definition betaFeature : Next := fun s =>
  let feature := c_feature (ctx s) in
  Done (set_json (JObj [
    ("message", JStr "This is a beta feature");
    ("description", JStr "Protected by feature flags with 50% rollout");
    ("feature_info", JObj [
       ("name", match feature with Some f => JStr (f_name f) | None => JNull end);
       ("enabled", match feature with Some f => JBool (f_enabled f) | None => JNull end);
       ("rolloutPercentage",
          match feature with Some f => JNum (f_rolloutPercentage f) | None => JNull end)]);
    ("beta_data", JObj [("new_algorithm", JStr "active");
                        ("performance_boost", JStr "25%");
                        ("additional_features",
                           JArr [JStr "real-time-sync"; JStr "advanced-analytics"])])]) s).

Definition multipleMiddleware : Next := fun s =>
  let user := c_user (ctx s) in
  let device := c_device (ctx s) in
  let feature := c_feature (ctx s) in
  Done (set_json (JObj [
    ("message", JStr "This endpoint uses multiple middleware");
    ("description", JStr "Demonstrates middleware chaining and interaction");
    ("middleware_data", JObj [
       ("user", match user with
                | Some u => JObj [("name", JStr (name u)); ("role", JStr (role u))]
                | None => JNull end);
       ("device", match device with
                  | Some d => JObj [("type", JStr (d_type d)); ("browser", JStr (d_browser d))]
                  | None => JNull end);
       ("feature", match feature with
                   | Some f => JObj [("name", JStr (f_name f)); ("enabled", JBool (f_enabled f))]
                   | None => JNull end)]);
    ("combined_result", JObj [
       ("access_level", JStr (match user with
                              | Some u => if String.eqb (role u) "" then "guest" else role u
                              | None => "guest" end));
       ("device_optimization", JStr (match device with
                                     | Some d => if String.eqb (d_type d) "" then "unknown" else d_type d
                                     | None => "unknown" end));
       ("feature_access", JBool (match feature with
                                 | Some f => f_enabled f | None => false end))])]) s).

Definition public : Next := fun s =>
  Done (set_json (JObj [
    ("message", JStr "This is a public endpoint");
    ("description", JStr "Only global middleware runs here");
    ("data", JObj [("method", JStr (method (req s))); ("url", JStr (url (req s)));
                   ("timestamp", JStr (iso_now (env s)))])]) s).

Definition deviceAware : Next := fun s =>
  let device := c_device (ctx s) in
  Done (set_json (JObj [
    ("message", JStr "This endpoint adapts to your device");
    ("description", JStr "Response changes based on device type");
    ("device_detection", match device with Some d => DeviceDetector.device_json d
                                          | None => JNull end);
    ("optimized_content",
       if match device with Some d => d_isMobile d | None => false end
       then JObj [("layout", JStr "mobile"); ("images", JStr "compressed");
                  ("js", JStr "minimal")]
       else JObj [("layout", JStr "desktop"); ("images", JStr "full-res");
                  ("js", JStr "complete")])]) s).

(** [request.body()] fails exactly when the body cannot be read. *)
Definition create : Next := fun s =>
  if body_throws (req s) then Threw s else
  let user := c_user (ctx s) in
  Done (status_json 201 (JObj [
    ("message", JStr "Data created successfully");
    ("created_data", body (req s));
    ("created_by", JStr (match user with Some u => name u | None => "anonymous" end));
    ("created_at", JStr (iso_now (env s)))]) s).

(** [throw new Error(...)] *)
Definition error : Next := fun s => Threw s.

End DemoController.

(** ** RateLimit (unnamed/part_002) *)

Module RateLimit.

Inductive LimitType := default | strict | generous.

Definition limitName (t : LimitType) : string :=
  match t with default => "default" | strict => "strict" | generous => "generous" end.

Record Limit := mkLimit { lrequests : Z; windowMs : Z }.

Definition limits (t : LimitType) : Limit :=
  match t with
  | default => mkLimit 100 (15 * 60 * 1000)
  | strict => mkLimit 10 (60 * 1000)
  | generous => mkLimit 1000 (60 * 60 * 1000)
  end.

Definition key (clientIP : string) (t : LimitType) : string :=
  clientIP ++ ":" ++ limitName t.

(** The entry after [requestData.count++]: reset the window when there is
    no entry or it has expired. *)
Definition bump (stored : option Entry) (now : Z) (limit : Limit) : Entry :=
  let requestData :=
    match stored with
    | Some e => if now >? resetTime e then mkEntry 0 (now + windowMs limit) else e
    | None => mkEntry 0 (now + windowMs limit)
    end in
  mkEntry (count requestData + 1) (resetTime requestData).

(** [Math.ceil(x / 1000)] on integers. *)
Definition ceil_div1000 (x : Z) : Z := - ((- x) / 1000).

Definition handle (limitType : LimitType) : Middleware := fun s next =>
  let clientIP := ip (req s) in
  let k := key clientIP limitType in
  let limit := limits limitType in
  let now := now_ms (env s) in
  let requestData := bump (requests s !! k) now limit in
  let s1 := set_requests (<[k := requestData]> (requests s)) s in
  if count requestData >? lrequests limit then
    let resetIn := ceil_div1000 (resetTime requestData - now) in
    let s2 := header "Retry-After" (pretty resetIn)
               (header "X-RateLimit-Reset" (pretty (resetTime requestData))
                 (header "X-RateLimit-Remaining" "0"
                   (header "X-RateLimit-Limit" (pretty (lrequests limit)) s1))) in
    Done (status_json 429 (JObj [
      ("error", JStr "Rate limit exceeded");
      ("message", JStr ("Too many requests from " ++ clientIP));
      ("limit", JObj [("requests", JNum (lrequests limit));
                      ("windowMs", JNum (windowMs limit));
                      ("type", JStr (limitName limitType))]);
      ("current", JObj [("count", JNum (count requestData));
                        ("resetIn", JStr (pretty resetIn ++ " seconds"))])]) s2)
  else
    let remaining := lrequests limit - count requestData in
    let s2 := header "X-RateLimit-Reset" (pretty (resetTime requestData))
               (header "X-RateLimit-Remaining" (pretty remaining)
                 (header "X-RateLimit-Limit" (pretty (lrequests limit)) s1)) in
    next s2.

End RateLimit.

(** ** FeatureFlag (unnamed/part_001) *)

Module FeatureFlag.

Record Flag := mkFlag { enabled : bool; rollout : Z; requiresAuth : bool }.

(** [this.features]; an absent [requiresAuth] reads as false. *)
Definition features : list (string * Flag) :=
  [("new-api", mkFlag true 100 false);
   ("beta-features", mkFlag true 50 false);
   ("experimental", mkFlag false 0 false);
   ("premium-features", mkFlag true 100 true)].

(** ToInt32 of a number that is already an integer. *)
Definition toInt32 (x : Z) : Z := (x + 2 ^ 31) mod 2 ^ 32 - 2 ^ 31.

(** One round of the loop: [hash = ((hash << 5) - hash) + char;
    hash = hash & hash]. *)
Definition hash_step (hash : Z) (c : ascii) : Z :=
  toInt32 (toInt32 (hash * 32) - hash + Z.of_nat (nat_of_ascii c)).

Fixpoint hash_string (hash : Z) (seed : string) : Z :=
  match seed with
  | EmptyString => hash
  | String c seed' => hash_string (hash_step hash c) seed'
  end.

(** [charCodeAt] is read as the character's code: request IPs and
    User-Agent strings are ASCII. *)
Definition getUserRolloutId (r : Request) : Z :=
  let userAgent := match req_header "user-agent" r with
                   | Some u => u | None => "" end in
  let seed := ip r ++ userAgent in
  Z.abs (hash_string 0 seed).

Definition err_unknown (featureName : string) : json :=
  JObj [("error", JStr "Feature not found");
        ("message", JStr ("Feature '" ++ featureName ++ "' is not configured"));
        ("availableFeatures", JArr (map (fun p => JStr (fst p)) features))].

Definition err_disabled (featureName : string) : json :=
  JObj [("error", JStr "Feature disabled");
        ("message", JStr ("Feature '" ++ featureName ++ "' is currently disabled"));
        ("feature", JObj [("name", JStr featureName); ("enabled", JBool false)])].

Definition err_rollout (featureName : string) (f : Flag) : json :=
  JObj [("error", JStr "Feature not available");
        ("message", JStr ("Feature '" ++ featureName ++ "' is not available for your account"));
        ("feature", JObj [("name", JStr featureName); ("enabled", JBool true);
                          ("inRollout", JBool false);
                          ("rolloutPercentage", JNum (rollout f))])].

Definition err_auth (featureName : string) : json :=
  JObj [("error", JStr "Authentication required");
        ("message", JStr ("Feature '" ++ featureName ++ "' requires user authentication"));
        ("feature", JObj [("name", JStr featureName); ("requiresAuth", JBool true)])].

(** The properties every object inherits from [Object.prototype]:
    [this.features[featureName]] finds them too (a function, or the
    prototype itself for "__proto__"), and their [enabled] is undefined. *)
Definition inherited : list string :=
  ["constructor"; "__proto__"; "hasOwnProperty"; "isPrototypeOf";
   "propertyIsEnumerable"; "toLocaleString"; "toString"; "valueOf";
   "__defineGetter__"; "__defineSetter__"; "__lookupGetter__"; "__lookupSetter__"].

Definition handle (featureName : string) : Middleware := fun s next =>
  match assoc featureName features with
  | None =>
      if existsb (String.eqb featureName) inherited
      then Done (status_json 403 (err_disabled featureName) s)
      else Done (status_json 404 (err_unknown featureName) s)
  | Some feature =>
      if negb (enabled feature)
      then Done (status_json 403 (err_disabled featureName) s) else
      let userRolloutId := getUserRolloutId (req s) in
      let userRolloutPercentage := Z.rem userRolloutId 100 in
      if userRolloutPercentage >=? rollout feature
      then Done (status_json 403 (err_rollout featureName feature) s) else
      if requiresAuth feature &&
         match c_user (ctx s) with None => true | Some _ => false end
      then Done (status_json 401 (err_auth featureName) s) else
      let c := ctx s in
      let s1 := set_ctx (mkContext (c_user c) (c_isAdmin c) (c_adminPermissions c)
                  (Some (mkFeatureCtx featureName true userRolloutId (rollout feature)))
                  (c_device c) (c_requestId c)) s in
      after (next s1) (fun t =>
        header "X-Feature-Rollout" (pretty (rollout feature))
          (header "X-Feature-Enabled" "true"
            (header "X-Feature-Flag" featureName t)))
  end.

End FeatureFlag.

(** ** ResponseTransformer (app/Middleware/ResponseTransformer.ts) *)

Module ResponseTransformer.

Definition digit36 (d : Z) : ascii :=
  if (d <? 10)%Z then ascii_of_nat (48 + Z.to_nat d)
  else ascii_of_nat (97 + Z.to_nat (d - 10)).

Fixpoint base36_go (fuel : nat) (n : Z) (acc : string) : string :=
  match fuel with
  | O => acc
  | S f =>
      let acc' := String (digit36 (n mod 36)) acc in
      if (n <? 36)%Z then acc' else base36_go f (n / 36) acc'
  end.

(** [n.toString(36)] for a non-negative integer. *)
Definition toString36 (n : Z) : string := base36_go (S (Z.to_nat (Z.log2 n))) n "".

Definition generateRequestId (e : Env) : string :=
  "req_" ++ toString36 (now_ms e) ++ "_" ++ random_str e.

Definition meta_error (requestId : string) (e : Env) : json :=
  JObj [("requestId", JStr requestId);
        ("processingTime", JStr (elapsed e ++ "ms"));
        ("timestamp", JStr (iso_now e))].

Definition meta_ok (requestId : string) (e : Env) : json :=
  JObj [("requestId", JStr requestId);
        ("processingTime", JStr (elapsed e ++ "ms"));
        ("timestamp", JStr (iso_now e));
        ("version", JStr "1.0.0")].

Definition error_envelope (requestId : string) (e : Env) : json :=
  JObj [("error", JStr "Internal Server Error");
        ("message", JStr "An error occurred while processing your request");
        ("meta", meta_error requestId e)].

(** Both request validation and the catch around [next()]; the thrown
    values of this repository are [Error] objects, hence truthy. *)
Definition handle : Middleware := fun s next =>
  let requestId := generateRequestId (env s) in
  let c := ctx s in
  let s1 := set_ctx (mkContext (c_user c) (c_isAdmin c) (c_adminPermissions c)
                       (c_feature c) (c_device c) (Some requestId)) s in
  let s2 := header "X-Request-ID" requestId s1 in
  let is_json := match req_header "content-type" (req s) with
                 | Some ct => DeviceDetector.includes "application/json" ct
                 | None => false end in
  if is_json && body_throws (req s) then
    Done (status_json 400 (JObj [("error", JStr "Invalid JSON");
                                 ("message", JStr "Request body contains malformed JSON");
                                 ("requestId", JStr requestId)]) s2)
  else
    let perf t := header "X-Server" "AdonisJS-Middleware-Demo"
                    (header "X-Processing-Time" (elapsed (env s) ++ "ms") t) in
    match next s2 with
    | Threw t => Done (status_json 500 (error_envelope requestId (env s)) (perf t))
    | Done t =>
        let t1 := perf t in
        match body_fields t1 with
        | Some fs => Done (set_json (JObj (obj_set "meta" (meta_ok requestId (env s)) fs)) t1)
        | None => Done t1
        end
    end.

End ResponseTransformer.

(** ** Routes (start/routes.ts) *)

Module Routes.

(** Global middleware first, then the route's named middleware. *)
Definition route (named : list Middleware) (handler : Next) : Next :=
  chain (globals ++ named) handler.

Definition protected : Next := route [Auth.handle] DemoController.protected.
Definition admin : Next := route [Auth.handle; Admin.handle] DemoController.admin.
Definition rateLimited : Next :=
  route [RateLimit.handle RateLimit.strict] DemoController.rateLimited.

Definition public : Next := route [] DemoController.public.
Definition beta : Next :=
  route [FeatureFlag.handle "beta-features"] DemoController.betaFeature.
Definition device : Next := route [DeviceDetector.handle] DemoController.deviceAware.
Definition transform : Next := route [ResponseTransformer.handle] DemoController.public.
Definition create : Next :=
  route [Auth.handle; RateLimit.handle RateLimit.default] DemoController.create.
Definition admin_create : Next :=
  route [Auth.handle; Admin.handle; ResponseTransformer.handle] DemoController.create.
Definition error : Next := route [ResponseTransformer.handle] DemoController.error.

(** A route group's middleware runs before the middleware of its routes. *)
Definition premium (handler : Next) : Next :=
  route [Auth.handle; FeatureFlag.handle "premium-features"; ResponseTransformer.handle]
    handler.
Definition premium_dashboard : Next := premium DemoController.multipleMiddleware.
Definition premium_analytics : Next := premium DemoController.admin.
Definition premium_settings : Next := premium DemoController.create.

Definition api (named : list Middleware) (handler : Next) : Next :=
  route (ResponseTransformer.handle :: named) handler.
Definition api_data : Next :=
  api [RateLimit.handle RateLimit.generous] DemoController.public.
Definition api_users : Next :=
  api [Auth.handle; RateLimit.handle RateLimit.default] DemoController.protected.
Definition api_process : Next :=
  api [Auth.handle; RateLimit.handle RateLimit.strict] DemoController.create.

(** A fresh request: empty context and the default 200 response. *)
Definition start (r : Request) (store : gmap string Entry) (e : Env) : State :=
  mkState r empty_ctx initial_response store e.

Definition outcome_state (o : Outcome) : State :=
  match o with Done s => s | Threw s => s end.

Definition outcome_status (o : Outcome) : option Z :=
  match o with Done s => Some (status (resp s)) | Threw _ => None end.

(** Requests served one after the other, each seeing the rate-limit table
    the previous one left. *)
Fixpoint serve_all (handler : Next) (store : gmap string Entry)
    (rs : list (Request * Env)) : list Outcome :=
  match rs with
  | [] => []
  | (r, e) :: rs' =>
      let o := handler (start r store e) in
      o :: serve_all handler (requests (outcome_state o)) rs'
  end.

End Routes.

(** ** Definitions used by the properties *)

(** What the global after-hooks leave alone. *)
Definition keeps (f : State -> State) (hk : list string) : Prop :=
  forall s, status (resp (f s)) = status (resp s) /\
            requests (f s) = requests s /\
            forall k, ~ In k hk -> resp_header k (f s) = resp_header k s.

Definition cors_keys : list string :=
  ["Access-Control-Allow-Origin"; "Access-Control-Allow-Methods";
   "Access-Control-Allow-Headers"; "Access-Control-Allow-Credentials"].

Definition security_keys : list string :=
  ["X-Powered-By"; "Permissions-Policy"; "Strict-Transport-Security";
   "Content-Security-Policy"; "Referrer-Policy"; "X-XSS-Protection";
   "X-Content-Type-Options"; "X-Frame-Options"].

(** The request that separates [replace] from prefix stripping: the
    "Bearer " inside the header value is the one removed. *)
Definition inner_bearer_request : Request :=
  mkRequest "GET" "/demo/protected" "127.0.0.1"
    [("authorization", "user-token-Bearer 123")] [] JNull false.

Definition sample_env : Env :=
  mkEnv 1700000000000 "k3j5x9q2m1" "1.25" "2026-10-15T12:00:00.000Z".

Definition step_entry (stored : option Entry) (now w : Z) : Entry :=
  match stored with
  | Some e => if now >? resetTime e then mkEntry 1 (now + w)
              else mkEntry (count e + 1) (resetTime e)
  | None => mkEntry 1 (now + w)
  end.

(** How [RateLimit.handle] ends: it runs [next] on a state [s'] or answers
    429 from a state with the same table as [s']. *)
Definition rl_ends (o : Outcome) (next : Next) (s' : State) : Prop :=
  o = next s' \/
  exists s'', o = Done s'' /\ requests s'' = requests s' /\ status (resp s'') = 429.

(** The flag metadata [handle] attaches before running [next]. *)
Definition feature_ctx (featureName : string) (f : FeatureFlag.Flag) (s : State) : State :=
  let c := ctx s in
  set_ctx (mkContext (c_user c) (c_isAdmin c) (c_adminPermissions c)
             (Some (mkFeatureCtx featureName true
                      (FeatureFlag.getUserRolloutId (req s)) (FeatureFlag.rollout f)))
             (c_device c) (c_requestId c)) s.


(** The CORS headers [t] carries after [setCorsHeaders] ran on a state
    whose Allow-Origin header was that of [t0]: the origin is echoed when
    it is in the static list, a missing or empty origin gives "*", and any
    other origin leaves the Allow-Origin header as it was. *)
Definition cors_headers_ok (origin : option string) (t0 t : State) : Prop :=
  resp_header "Access-Control-Allow-Methods" t = Some "GET, POST, PUT, DELETE, PATCH, OPTIONS" /\
  resp_header "Access-Control-Allow-Headers" t =
    Some "Content-Type, Authorization, X-Requested-With, Accept, Origin" /\
  resp_header "Access-Control-Allow-Credentials" t = Some "true" /\
  resp_header "Access-Control-Allow-Origin" t =
    match origin with
    | None => Some "*"
    | Some o =>
        if String.eqb o "" then Some "*"
        else if existsb (String.eqb o) Cors.allowedOrigins then Some o
        else resp_header "Access-Control-Allow-Origin" t0
    end.

Definition evil_origin_request : Request :=
  mkRequest "GET" "/demo/protected" "127.0.0.1"
    [("authorization", "Bearer user-token-123"); ("origin", "http://evil.com")] [] JNull false.

Definition rl_request : Request :=
  mkRequest "GET" "/demo/rate-limited" "127.0.0.1" [] [] JNull false.

Definition rl_env (k : Z) : Env :=
  mkEnv (1700000000000 + 1000 * k) "k3j5x9q2m1" "1.25" "2026-10-15T12:00:00.000Z".

Definition rl_rest : list (Request * Env) :=
  map (fun k => (rl_request, rl_env k)) [1; 2; 3; 4; 5; 6; 7; 8; 9; 10].

Definition ua_request_a : Request :=
  mkRequest "GET" "/demo/multiple" "10.0.0.7"
    [("user-agent", "Mozilla/5.0 (X11; Linux x86_64)"); ("authorization", "Bearer user-token-123")]
    [] JNull false.

Definition ua_request_b : Request :=
  mkRequest "POST" "/demo/experimental" "10.0.0.7"
    [("user-agent", "Mozilla/5.0 (X11; Linux x86_64)")] [("token", JStr "demo-token")] JNull false.

(** [parseInt(s, 36)] on a string of the digits [0-9a-z]. *)
Definition digit_value (c : ascii) : Z :=
  let k := Z.of_nat (nat_of_ascii c) in
  if (k <? 58)%Z then k - 48 else k - 87.

Fixpoint parse36_from (acc : Z) (s : string) : Z :=
  match s with
  | EmptyString => acc
  | String c s' => parse36_from (acc * 36 + digit_value c) s'
  end.

Definition parseInt36 (s : string) : Z := parse36_from 0 s.

Definition is_digit36 (c : ascii) : bool :=
  let k := nat_of_ascii c in
  ((48 <=? k) && (k <=? 57))%nat || ((97 <=? k) && (k <=? 122))%nat.

Fixpoint all_chars (p : ascii -> bool) (s : string) : bool :=
  match s with
  | EmptyString => true
  | String c s' => p c && all_chars p s'
  end.

(** The lower-cased User-Agent keywords of each device type. *)
Definition mobile_words : list string :=
  ["mobile"; "android"; "iphone"; "ipod"; "blackberry"; "iemobile"; "opera mini"].

(** The state Auth hands to [next] once it accepted a token for [u]. *)
Definition with_user (u : User) (s : State) : State :=
  let c := ctx s in
  set_ctx (mkContext (Some u) (c_isAdmin c) (c_adminPermissions c) (c_feature c)
             (c_device c) (c_requestId c)) s.

(** The token Auth reads: [request.header('authorization') || request.input('token')]. *)
Definition auth_token (r : Request) : option json :=
  js_or (option_map JStr (req_header "authorization" r)) (req_input "token" r).

Definition expired_store : gmap string Entry :=
  {[ RateLimit.key "127.0.0.1" RateLimit.default := mkEntry 100 (now_ms (rl_env 0) - 1) ]}.

Definition full_strict_store : gmap string Entry :=
  {[ RateLimit.key "127.0.0.1" RateLimit.strict := mkEntry 10 (now_ms (rl_env 0) + 30000) ]}.

Definition preflight_request : Request :=
  mkRequest "OPTIONS" "/demo/protected" "127.0.0.1"
    [("origin", "http://localhost:3000")] [] JNull false.

Definition broken_json_request : Request :=
  mkRequest "POST" "/demo/error" "127.0.0.1"
    [("content-type", "application/json")] [] JNull true.

Definition admin_create_request : Request :=
  mkRequest "POST" "/demo/admin/create" "10.0.0.9"
    [("authorization", "Bearer admin-token-456"); ("content-type", "application/json")] []
    (JObj [("item", JStr "widget")]) false.

Definition user_create_request : Request :=
  mkRequest "POST" "/demo/create" "10.0.0.9"
    [("authorization", "Bearer user-token-123"); ("user-agent", "Mozilla/5.0 (Android 14)")] []
    (JObj [("item", JStr "widget")]) false.

(** The strict entry of 127.0.0.1 at its limit, next to a live entry of
    another client. *)
Definition shared_store : gmap string Entry :=
  <[ RateLimit.key "127.0.0.1" RateLimit.strict := mkEntry 10 (now_ms (rl_env 0) + 30000) ]>
  {[ RateLimit.key "10.0.0.2" RateLimit.generous := mkEntry 7 (now_ms (rl_env 0) + 100000) ]}.

Definition error_request : Request :=
  mkRequest "GET" "/demo/error" "127.0.0.1" [] [] JNull false.

Definition premium_request : Request :=
  mkRequest "GET" "/premium/dashboard" "10.0.0.9"
    [("authorization", "Bearer user-token-123")] [] JNull false.

(** [?token=a&token=b]: the query string gives an array. *)
Definition array_token_request : Request :=
  mkRequest "GET" "/demo/multiple" "10.0.0.9" [] [("token", JArr [JStr "a"; JStr "b"])]
    JNull false.

(** * Properties *)

(** ** Response helpers *)

Lemma assoc_filter_ne {A} (k k' : string) (l : list (string * A)) :
  k <> k' ->
  assoc k (List.filter (fun p => negb (String.eqb k' (fst p))) l) = assoc k l.
Proof.
  intros Hne. induction l as [|[k0 v0] l IH]; simpl; [reflexivity|].
  destruct (String.eqb k' k0) eqn:E; simpl.
  - apply String.eqb_eq in E; subst k0.
    apply String.eqb_neq in Hne. rewrite Hne. exact IH.
  - destruct (String.eqb k k0); [reflexivity | exact IH].
Qed.

Lemma assoc_filter_eq {A} (k : string) (l : list (string * A)) :
  assoc k (List.filter (fun p => negb (String.eqb k (fst p))) l) = None.
Proof.
  induction l as [|[k0 v0] l IH]; simpl; [reflexivity|].
  destruct (String.eqb k k0) eqn:E; simpl; [exact IH|].
  rewrite E. exact IH.
Qed.

Lemma assoc_snoc {A} (k k' : string) (v : A) (l : list (string * A)) :
  assoc k (app l [(k', v)]) =
  match assoc k l with Some x => Some x | None => if String.eqb k k' then Some v else None end.
Proof.
  induction l as [|[k0 v0] l IH]; simpl; [reflexivity|].
  destruct (String.eqb k k0); [reflexivity | exact IH].
Qed.

Lemma resp_header_ne (k k' v : string) (s : State) :
  k <> k' -> resp_header k (header k' v s) = resp_header k s.
Proof.
  intros Hne. unfold resp_header, header, hset; simpl.
  rewrite assoc_snoc, assoc_filter_ne by exact Hne.
  apply String.eqb_neq in Hne. rewrite Hne.
  destruct (assoc k (rheaders (resp s))); reflexivity.
Qed.

Lemma resp_header_eq (k v : string) (s : State) :
  resp_header k (header k v s) = Some v.
Proof.
  unfold resp_header, header, hset; simpl.
  rewrite assoc_snoc, assoc_filter_eq, String.eqb_refl. reflexivity.
Qed.

Lemma resp_header_set_json (k : string) (b : json) (s : State) :
  resp_header k (set_json b s) = resp_header k s.
Proof. reflexivity. Qed.

Lemma resp_header_set_status (k : string) (n : Z) (s : State) :
  resp_header k (set_status n s) = resp_header k s.
Proof. reflexivity. Qed.

Ltac keeps_headers :=
  repeat match goal with
  | |- resp_header ?k (header ?k' _ _) = _ =>
      rewrite resp_header_ne by (intros ->; simpl in *; tauto)
  end; reflexivity.

Lemma keeps_cors : keeps Cors.setCorsHeaders cors_keys.
Proof.
  intros s. unfold Cors.setCorsHeaders.
  destruct (req_header "origin" (req s)) as [o|].
  - destruct (truthy (Some o) && existsb (String.eqb o) Cors.allowedOrigins);
      [|destruct (negb (truthy (Some o)))];
      (split; [reflexivity | split; [reflexivity | intros k Hk; keeps_headers]]).
  - split; [reflexivity | split; [reflexivity | intros k Hk; keeps_headers]].
Qed.

Lemma keeps_security : keeps SecurityHeaders.add_headers security_keys.
Proof.
  intros s. split; [reflexivity | split; [reflexivity | intros k Hk]].
  unfold SecurityHeaders.add_headers. keeps_headers.
Qed.

(** ** The global middleware around a route *)

Lemma route_unfold (named : list Middleware) (h : Next) (s : State) :
  method (req s) <> "OPTIONS" -> body_read_fails (req s) = false ->
  Routes.route named h s =
  after (after (chain named h s) SecurityHeaders.add_headers) Cors.setCorsHeaders.
Proof.
  intros Hm Hb. unfold Routes.route, chain. rewrite fold_right_app. simpl.
  unfold RequestLogger, Cors.handle. rewrite Hb.
  apply String.eqb_neq in Hm. rewrite Hm. reflexivity.
Qed.

Lemma route_logger_throws (named : list Middleware) (h : Next) (s : State) :
  body_read_fails (req s) = true -> Routes.route named h s = Threw s.
Proof.
  intros Hb. unfold Routes.route, chain. rewrite fold_right_app. simpl.
  unfold RequestLogger. rewrite Hb. reflexivity.
Qed.

Lemma body_read_get (r : Request) : method r = "GET" -> body_read_fails r = false.
Proof. intros Hm. unfold body_read_fails. rewrite Hm. reflexivity. Qed.

Lemma body_read_post (r : Request) :
  method r = "POST" -> body_read_fails r = body_throws r.
Proof. intros Hm. unfold body_read_fails. rewrite Hm. reflexivity. Qed.

Lemma route_done (named : list Middleware) (h : Next) (s t : State) :
  method (req s) <> "OPTIONS" -> body_read_fails (req s) = false -> chain named h s = Done t ->
  exists t', Routes.route named h s = Done t' /\
    status (resp t') = status (resp t) /\ requests t' = requests t /\
    forall k, ~ In k cors_keys -> ~ In k security_keys ->
      resp_header k t' = resp_header k t.
Proof.
  intros Hm Hb Hc. rewrite route_unfold, Hc by assumption. simpl.
  eexists; split; [reflexivity|].
  destruct (keeps_cors (SecurityHeaders.add_headers t)) as [S1 [R1 H1]].
  destruct (keeps_security t) as [S2 [R2 H2]].
  split; [congruence | split; [congruence|]].
  intros k Hk1 Hk2. rewrite H1, H2 by assumption. reflexivity.
Qed.

Lemma status_after_globals (o : Outcome) :
  Routes.outcome_status
    (after (after o SecurityHeaders.add_headers) Cors.setCorsHeaders) =
  Routes.outcome_status o.
Proof.
  destruct o as [t|t]; cbn [after Routes.outcome_status]; [|reflexivity].
  destruct (keeps_cors (SecurityHeaders.add_headers t)) as [S1 _].
  destruct (keeps_security t) as [S2 _]. rewrite S1, S2. reflexivity.
Qed.

(** ** Auth *)

Lemma validTokens_cases (t : string) :
  existsb (String.eqb t) Auth.validTokens = true ->
  t = "user-token-123" \/ t = "admin-token-456" \/ t = "demo-token-789".
Proof.
  intros H. apply existsb_exists in H as [x [Hin Hx]].
  apply String.eqb_eq in Hx. subst x. simpl in Hin.
  destruct Hin as [<-|[<-|[<-|[]]]]; tauto.
Qed.

Lemma existsb_eqb_in (x : string) (l : list string) :
  existsb (String.eqb x) l = true <-> In x l.
Proof.
  rewrite existsb_exists. split.
  - intros [y [Hy E]]. apply String.eqb_eq in E. subst. exact Hy.
  - intros H. exists x. split; [exact H | apply String.eqb_refl].
Qed.

Lemma jtruthy_str (o : option string) : jtruthy (option_map JStr o) = truthy o.
Proof. destruct o; reflexivity. Qed.

Lemma auth_token_header (r : Request) (h : string) :
  req_header "authorization" r = Some h -> h <> "" -> auth_token r = Some (JStr h).
Proof.
  intros Hh Hne. unfold auth_token, js_or. rewrite Hh. cbn [option_map jtruthy js_truthy].
  apply String.eqb_neq in Hne. rewrite Hne. reflexivity.
Qed.

Lemma auth_token_input (r : Request) :
  truthy (req_header "authorization" r) = false -> auth_token r = req_input "token" r.
Proof. intros Ht. unfold auth_token, js_or. rewrite jtruthy_str, Ht. reflexivity. Qed.

(** Auth on each kind of token. *)
Lemma auth_token_cases (s : State) (next : Next) :
  (forall t, auth_token (req s) = Some (JStr t) -> t <> "" ->
     In (replace_first "Bearer " "" t) Auth.validTokens ->
     Auth.handle s next =
       next (with_user (Auth.getUserFromToken (replace_first "Bearer " "" t)) s)) /\
  (forall t, auth_token (req s) = Some (JStr t) -> t <> "" ->
     ~ In (replace_first "Bearer " "" t) Auth.validTokens ->
     Auth.handle s next = Done (status_json 401 Auth.err_invalid s)) /\
  (jtruthy (auth_token (req s)) = false ->
     Auth.handle s next = Done (status_json 401 Auth.err_no_token s)) /\
  (forall v, auth_token (req s) = Some v -> js_truthy v = true -> (forall t, v <> JStr t) ->
     Auth.handle s next = Threw s).
Proof.
  unfold auth_token. split; [|split; [|split]].
  - intros t Ht Hne Hin. unfold Auth.handle. rewrite Ht. cbn [js_truthy].
    apply String.eqb_neq in Hne. rewrite Hne. cbn [negb].
    apply existsb_eqb_in in Hin. rewrite Hin. reflexivity.
  - intros t Ht Hne Hin. unfold Auth.handle. rewrite Ht. cbn [js_truthy].
    apply String.eqb_neq in Hne. rewrite Hne. cbn [negb].
    destruct (existsb _ _) eqn:E; [apply existsb_eqb_in in E; contradiction|reflexivity].
  - intros Hf. unfold Auth.handle.
    destruct (js_or _ _) as [v|]; [|reflexivity].
    cbn [jtruthy] in Hf. rewrite Hf. reflexivity.
  - intros v Hv Ht Hn. unfold Auth.handle. rewrite Hv, Ht. cbn [negb].
    destruct v; try reflexivity. exfalso. eapply Hn. reflexivity.
Qed.

Lemma auth_split (s : State) :
  (exists b, (b = Auth.err_no_token \/ b = Auth.err_invalid) /\
     forall next, Auth.handle s next = Done (status_json 401 b s)) \/
  (exists u, In u [Auth.john; Auth.jane; Auth.demo] /\
     forall next, Auth.handle s next = next (with_user u s)) \/
  (exists v, auth_token (req s) = Some v /\ js_truthy v = true /\ (forall t, v <> JStr t) /\
     forall next, Auth.handle s next = Threw s).
Proof.
  destruct (jtruthy (auth_token (req s))) eqn:Hj.
  2:{ left. exists Auth.err_no_token. split; [left; reflexivity|].
      intros next. apply (auth_token_cases s next). exact Hj. }
  destruct (auth_token (req s)) as [v|] eqn:Hv; [|discriminate].
  cbn [jtruthy] in Hj.
  destruct v as [|b|z|t|l|fs]; [discriminate Hj|..];
    try (right; right; eexists; split; [reflexivity|]; split; [exact Hj|];
         split; [intros t' Ht'; discriminate|];
         intros next; apply (proj2 (proj2 (proj2 (auth_token_cases s next))) _ Hv Hj);
         intros t' Ht'; discriminate).
  assert (Hne : t <> "")
    by (cbn [js_truthy] in Hj; intros ->; discriminate).
  destruct (existsb (String.eqb (replace_first "Bearer " "" t)) Auth.validTokens) eqn:E.
  - right; left. assert (Hin := E). apply existsb_eqb_in in Hin.
    apply validTokens_cases in E.
    destruct E as [E|[E|E]];
      [exists Auth.john | exists Auth.jane | exists Auth.demo];
      (split; [simpl; tauto|]);
      intros next; rewrite (proj1 (auth_token_cases s next) t Hv Hne Hin), E; reflexivity.
  - left. exists Auth.err_invalid. split; [right; reflexivity|].
    intros next. apply (proj1 (proj2 (auth_token_cases s next)) t Hv Hne).
    intros Hin. apply existsb_eqb_in in Hin. congruence.
Qed.

Lemma valid_token_forms (tok : string) :
  In tok Auth.validTokens ->
  replace_first "Bearer " "" tok = tok /\ replace_first "Bearer " "" ("Bearer " ++ tok) = tok /\
  tok <> "" /\ ("Bearer " ++ tok) <> "".
Proof.
  simpl. intros H. destruct H as [<-|[<-|[<-|[]]]];
    (split; [reflexivity | split; [reflexivity | split; discriminate]]).
Qed.

(** A token that is not a string comes from [request.input('token')]. *)
Lemma auth_token_nonstr (r : Request) (v : json) :
  auth_token r = Some v -> (forall t, v <> JStr t) -> req_input "token" r = Some v.
Proof.
  intros Hv Hs. unfold auth_token, js_or in Hv.
  destruct (jtruthy (option_map JStr (req_header "authorization" r))); [|exact Hv].
  destruct (req_header "authorization" r); [|discriminate].
  injection Hv as <-. exfalso. eapply Hs. reflexivity.
Qed.

(** Amended C9: whenever Auth runs the rest of the chain, the user it attached is
    one of the three mock records (ids 1, 2, 3 with roles user, admin,
    demo), never the guest fallback of [getUserFromToken]; otherwise it
    answers 401 itself, or throws when the token is a truthy value that is
    not a string (an array, number or boolean from [request.input]). *)
Theorem auth_attaches_mock_user (s : State) (next : Next) :
  (exists t, Auth.handle s next = Done t /\ status (resp t) = 401) \/
  (exists u s', In u [Auth.john; Auth.jane; Auth.demo] /\ u <> Auth.guest /\
     c_user (ctx s') = Some u /\ Auth.handle s next = next s') \/
  (exists v, req_input "token" (req s) = Some v /\ (forall t, v <> JStr t) /\
     Auth.handle s next = Threw s).
Proof.
  destruct (auth_split s) as [[b [_ Hb]]|[[u [Hu Hn]]|[v [Hv [_ [Hs Hn]]]]]].
  - left. eexists. split; [apply Hb|reflexivity].
  - right; left. exists u, (with_user u s). split; [exact Hu|]. split.
    + simpl in Hu. intros ->. repeat destruct Hu as [Hu|Hu]; try discriminate; exact Hu.
    + split; [reflexivity | apply Hn].
  - right; right. exists v. split; [|split; [exact Hs | apply Hn]].
    exact (auth_token_nonstr (req s) v Hv Hs).
Qed.

(** C9 counterexample: the token input of [?token=a&token=b] is an array,
    not one of the valid tokens, and Auth does not answer 401 to it:
    [token.replace] throws a TypeError. *)
Lemma auth_array_token_throws :
  req_input "token" array_token_request = Some (JArr [JStr "a"; JStr "b"]) /\
  Auth.handle (Routes.start array_token_request ∅ sample_env) (fun t => Done t)
  = Threw (Routes.start array_token_request ∅ sample_env).
Proof. split; vm_compute; reflexivity. Qed.

(** C1 (code_bug): the header value "user-token-Bearer 123" has no
    "Bearer " prefix and is not a valid token, yet [token.replace] removes
    the inner "Bearer " and the protected endpoint answers 200 for John
    Doe instead of 401. *)
Theorem auth_accepts_inner_bearer :
  String.prefix "Bearer " "user-token-Bearer 123" = false /\
  ~ In "user-token-Bearer 123" Auth.validTokens /\
  replace_first "Bearer " "" "user-token-Bearer 123" = "user-token-123" /\
  exists t, Routes.protected (Routes.start inner_bearer_request ∅ sample_env) = Done t /\
    status (resp t) = 200 /\ c_user (ctx t) = Some Auth.john.
Proof.
  split; [reflexivity|]. split.
  { simpl. intros H. repeat destruct H as [H|H]; try discriminate; exact H. }
  split; [reflexivity|].
  eexists. split; [vm_compute; reflexivity|]. split; reflexivity.
Qed.

(** ** Admin *)

Lemma auth_admin_route (r : Request) (store : gmap string Entry) (e : Env) (tok : string) :
  method r <> "OPTIONS" -> body_read_fails r = false ->
  req_header "authorization" r = Some ("Bearer " ++ tok) ->
  Routes.admin (Routes.start r store e) =
  after (after (Auth.handle (Routes.start r store e)
                  (fun s => Admin.handle s DemoController.admin))
           SecurityHeaders.add_headers) Cors.setCorsHeaders.
Proof.
  intros Hm Hb Hh. unfold Routes.admin. rewrite route_unfold by assumption. reflexivity.
Qed.

(** C2: Admin answers 401 without a user in the context and 403 for a
    user whose role is not "admin"; for an admin it records [isAdmin] and
    the four static permissions and runs the rest of the chain. On the
    admin endpoint, for a request that gets past RequestLogger (not a
    POST, PUT or PATCH with an unreadable body), "Bearer user-token-123"
    gets 403 and "Bearer admin-token-456" gets 200. *)
Theorem admin_authorizes (s : State) (next : Next) :
  (c_user (ctx s) = None ->
     exists t, Admin.handle s next = Done t /\ status (resp t) = 401) /\
  (forall u, c_user (ctx s) = Some u -> role u <> "admin" ->
     exists t, Admin.handle s next = Done t /\ status (resp t) = 403) /\
  (forall u, c_user (ctx s) = Some u -> role u = "admin" ->
     exists s', Admin.handle s next = next s' /\ c_user (ctx s') = Some u /\
       c_isAdmin (ctx s') = Some true /\
       c_adminPermissions (ctx s') =
         Some ["read_all_users"; "delete_users"; "modify_system_settings";
               "view_analytics"]) /\
  (forall r store e, method r <> "OPTIONS" -> body_read_fails r = false ->
     req_header "authorization" r = Some "Bearer user-token-123" ->
     Routes.outcome_status (Routes.admin (Routes.start r store e)) = Some 403) /\
  (forall r store e, method r <> "OPTIONS" -> body_read_fails r = false ->
     req_header "authorization" r = Some "Bearer admin-token-456" ->
     Routes.outcome_status (Routes.admin (Routes.start r store e)) = Some 200).
Proof.
  unfold Admin.handle. split; [|split; [|split; [|split]]].
  - intros H. rewrite H. eexists; split; reflexivity.
  - intros u H Hr. rewrite H. apply String.eqb_neq in Hr. rewrite Hr.
    eexists; split; reflexivity.
  - intros u H Hr. rewrite H, Hr. simpl.
    eexists; split; [reflexivity|]. simpl. auto.
  - intros r store e Hm Hb Hh.
    rewrite (auth_admin_route r store e "user-token-123"), status_after_globals
      by assumption.
    unfold Auth.handle. simpl req. rewrite Hh. reflexivity.
  - intros r store e Hm Hb Hh.
    rewrite (auth_admin_route r store e "admin-token-456"), status_after_globals
      by assumption.
    unfold Auth.handle. simpl req. rewrite Hh. reflexivity.
Qed.

(** ** RateLimit *)

Lemma las_app (a b : string) :
  String.list_ascii_of_string (a ++ b) = (String.list_ascii_of_string a ++ String.list_ascii_of_string b)%list.
Proof. induction a as [|c a IH]; simpl; [reflexivity | rewrite IH; reflexivity]. Qed.

Lemma las_inj (a b : string) : String.list_ascii_of_string a = String.list_ascii_of_string b -> a = b.
Proof.
  intros H. rewrite <- (String.string_of_list_ascii_of_string a), <- (String.string_of_list_ascii_of_string b).
  rewrite H. reflexivity.
Qed.

(** The table key "ip:tier" determines the IP and the tier: the three
    tier names end differently. *)
Lemma key_inj (a a' : string) (t t' : RateLimit.LimitType) :
  RateLimit.key a t = RateLimit.key a' t' -> a = a' /\ t = t'.
Proof.
  unfold RateLimit.key. intros H.
  apply (f_equal (fun x => rev (String.list_ascii_of_string x))) in H.
  rewrite !las_app, !rev_app_distr in H.
  destruct t, t'; simpl in H; try discriminate H;
    (split; [|reflexivity]);
    repeat (injection H as H); apply (f_equal (@rev ascii)) in H;
    rewrite !rev_involutive in H; apply las_inj; exact H.
Qed.

Lemma bump_step (stored : option Entry) (now : Z) (l : RateLimit.Limit) :
  RateLimit.bump stored now l = step_entry stored now (RateLimit.windowMs l).
Proof. unfold RateLimit.bump, step_entry. destruct stored as [e|]; [destruct (now >? resetTime e)|]; reflexivity. Qed.

Lemma rate_limit_table (t : RateLimit.LimitType) (s : State) (next : Next) :
  exists s', requests s' =
    <[RateLimit.key (ip (req s)) t :=
        RateLimit.bump (requests s !! RateLimit.key (ip (req s)) t)
          (now_ms (env s)) (RateLimit.limits t)]> (requests s) /\
    rl_ends (RateLimit.handle t s next) next s'.
Proof.
  unfold RateLimit.handle, rl_ends.
  destruct (count _ >? _).
  - eexists. split; [|right; eexists; split; [reflexivity | split; reflexivity]].
    reflexivity.
  - eexists. split; [|left; reflexivity]. reflexivity.
Qed.

Lemma rate_limit_table_req (t : RateLimit.LimitType) (s : State) (next : Next) :
  exists s', (requests s' =
    <[RateLimit.key (ip (req s)) t :=
        RateLimit.bump (requests s !! RateLimit.key (ip (req s)) t)
          (now_ms (env s)) (RateLimit.limits t)]> (requests s)) /\
    req s' = req s /\ ctx s' = ctx s /\ env s' = env s /\
    rl_ends (RateLimit.handle t s next) next s'.
Proof.
  unfold RateLimit.handle, rl_ends.
  destruct (count _ >? _).
  - eexists. split; [|split; [|split; [|split]]];
      [| | | |right; eexists; split; [reflexivity | split; reflexivity]]; reflexivity.
  - eexists. split; [|split; [|split; [|split]]]; [| | | |left; reflexivity]; reflexivity.
Qed.

(** C7: one request updates the entry of its (IP, tier) key by the fixed
    window rule: no entry or an expired one (now > resetTime) becomes
    count 1 with resetTime now + windowMs; otherwise the count goes up by
    one and resetTime stays. *)
Theorem rate_limit_fixed_window (t : RateLimit.LimitType) (s : State) (next : Next) :
  exists s',
    requests s' =
      <[RateLimit.key (ip (req s)) t :=
          match requests s !! RateLimit.key (ip (req s)) t with
          | Some e =>
              if now_ms (env s) >? resetTime e
              then mkEntry 1 (now_ms (env s) + RateLimit.windowMs (RateLimit.limits t))
              else mkEntry (count e + 1) (resetTime e)
          | None => mkEntry 1 (now_ms (env s) + RateLimit.windowMs (RateLimit.limits t))
          end]> (requests s) /\
    rl_ends (RateLimit.handle t s next) next s'.
Proof.
  destruct (rate_limit_table t s next) as [s' [Hs' Hend]].
  exists s'. split; [|exact Hend]. rewrite Hs', bump_step. reflexivity.
Qed.

(** C10: the entry of every other (IP, tier) key is the same before and
    after the request, allowed or rejected. *)
Theorem rate_limit_frame (t : RateLimit.LimitType) (s : State) (next : Next)
    (a' : string) (t' : RateLimit.LimitType) :
  (a', t') <> (ip (req s), t) ->
  exists s', requests s' !! RateLimit.key a' t' = requests s !! RateLimit.key a' t' /\
    rl_ends (RateLimit.handle t s next) next s'.
Proof.
  intros Hne. destruct (rate_limit_table t s next) as [s' [Hs' Hend]].
  exists s'. split; [|exact Hend]. rewrite Hs'.
  apply lookup_insert_ne. intros Hk. apply key_inj in Hk as [Ha Ht]. subst. congruence.
Qed.

Lemma globals_after_keeps (t : State) :
  status (resp (Cors.setCorsHeaders (SecurityHeaders.add_headers t))) = status (resp t) /\
  requests (Cors.setCorsHeaders (SecurityHeaders.add_headers t)) = requests t /\
  forall k, ~ In k cors_keys -> ~ In k security_keys ->
    resp_header k (Cors.setCorsHeaders (SecurityHeaders.add_headers t)) = resp_header k t.
Proof.
  destruct (keeps_cors (SecurityHeaders.add_headers t)) as [S1 [R1 H1]].
  destruct (keeps_security t) as [S2 [R2 H2]].
  split; [congruence | split; [congruence|]].
  intros k Hk1 Hk2. rewrite H1, H2 by assumption. reflexivity.
Qed.

Ltac use_globals :=
  match goal with
  | |- context [Cors.setCorsHeaders (SecurityHeaders.add_headers ?t)] =>
      destruct (globals_after_keeps t) as [Hst [Hrq Hhd]]; rewrite ?Hst, ?Hrq
  end.

Ltac read_header :=
  repeat (rewrite resp_header_set_json || rewrite resp_header_set_status ||
          rewrite resp_header_eq || (rewrite resp_header_ne by discriminate)).

Lemma not_global_key (k : string) :
  In k ["X-RateLimit-Remaining"; "Retry-After"] -> ~ In k cors_keys /\ ~ In k security_keys.
Proof.
  simpl. intros H. split; intros H'; destruct H as [<-|[<-|[]]]; simpl in H';
    repeat destruct H' as [H'|H']; try discriminate; exact H'.
Qed.

(** One request to the strict-rate-limited endpoint. *)
Lemma rate_limited_step (r : Request) (store : gmap string Entry) (e : Env) :
  method r <> "OPTIONS" -> body_read_fails r = false ->
  let k := RateLimit.key (ip r) RateLimit.strict in
  let en := RateLimit.bump (store !! k) (now_ms e) (RateLimit.limits RateLimit.strict) in
  exists t, Routes.rateLimited (Routes.start r store e) = Done t /\
    requests t = <[k := en]> store /\
    (count en <= 10 -> status (resp t) = 200 /\
       resp_header "X-RateLimit-Remaining" t = Some (pretty (10 - count en))) /\
    (count en > 10 -> status (resp t) = 429 /\
       resp_header "Retry-After" t =
         Some (pretty (RateLimit.ceil_div1000 (resetTime en - now_ms e)))).
Proof.
  intros Hm Hbr k en. unfold Routes.rateLimited.
  rewrite route_unfold by assumption. cbn [chain fold_right].
  unfold RateLimit.handle. cbn [Routes.start req env requests].
  fold k. fold en.
  destruct (count en >? RateLimit.lrequests (RateLimit.limits RateLimit.strict)) eqn:C;
    cbn [after DemoController.rateLimited];
    (eexists; split; [reflexivity|]);
    use_globals;
    (rewrite !Hhd by (apply not_global_key; simpl; tauto));
    (split; [reflexivity|]).
  - apply Z.gtb_lt in C. cbn [RateLimit.lrequests RateLimit.limits] in C.
    split; [intros; lia|]. intros _. split; [reflexivity|]. read_header. reflexivity.
  - rewrite Z.gtb_ltb in C. apply Z.ltb_ge in C.
    cbn [RateLimit.lrequests RateLimit.limits] in C.
    split; [|intros; lia]. intros _. split; [reflexivity|]. read_header. reflexivity.
Qed.

Lemma bump_live (c R now : Z) (l : RateLimit.Limit) :
  now <= R -> RateLimit.bump (Some (mkEntry c R)) now l = mkEntry (c + 1) R.
Proof.
  intros H. unfold RateLimit.bump. cbn [resetTime].
  assert (Hn : (now >? R) = false) by (rewrite Z.gtb_ltb; apply Z.ltb_ge; lia).
  rewrite Hn. reflexivity.
Qed.

Lemma serve_from (clientIP : string) (c R : Z) (store : gmap string Entry)
    (rs : list (Request * Env)) :
  store !! RateLimit.key clientIP RateLimit.strict = Some (mkEntry c R) ->
  Forall (fun p => ip (fst p) = clientIP /\ method (fst p) <> "OPTIONS" /\
                   body_read_fails (fst p) = false /\ now_ms (snd p) <= R) rs ->
  forall i, (i < length rs)%nat ->
  exists t, nth_error (Routes.serve_all Routes.rateLimited store rs) i = Some (Done t) /\
    (c + Z.of_nat i < 10 -> status (resp t) = 200 /\
       resp_header "X-RateLimit-Remaining" t = Some (pretty (10 - (c + Z.of_nat i + 1)))) /\
    (c + Z.of_nat i >= 10 -> status (resp t) = 429 /\
       exists v, resp_header "Retry-After" t = Some v).
Proof.
  revert c store. induction rs as [|[r e] rs IH]; intros c store Hst Hall i Hi;
    [simpl in Hi; lia|].
  apply Forall_cons_iff in Hall as [[Hip [Hm [Hbr Hnow]]] Hrest]. simpl in Hip, Hm, Hbr, Hnow.
  destruct (rate_limited_step r store e Hm Hbr) as [t [Ht [Hreq [Hok Hrej]]]].
  rewrite Hip, Hst, bump_live in Hreq, Hok, Hrej by exact Hnow.
  cbn [count resetTime] in Hreq, Hok, Hrej.
  simpl. rewrite Ht. destruct i as [|i].
  - exists t. split; [reflexivity|]. split.
    + intros Hc. replace (10 - (c + Z.of_nat 0 + 1)) with (10 - (c + 1)) by lia.
      apply Hok. lia.
    + intros Hc. destruct Hrej as [H1 H2]; [lia|]. split; [exact H1 | eexists; exact H2].
  - cbn [Routes.outcome_state].
    destruct (IH (c + 1) (requests t)) with (i := i) as [t' [Hnth [Hok' Hrej']]].
    + rewrite Hreq. apply lookup_insert_eq.
    + exact Hrest.
    + simpl in Hi. lia.
    + exists t'. split; [exact Hnth|]. rewrite Nat2Z.inj_succ. split.
      * intros Hc. replace (c + Z.succ (Z.of_nat i) + 1) with (c + 1 + Z.of_nat i + 1) by lia.
        apply Hok'. lia.
      * intros Hc. apply Hrej'. lia.
Qed.

(** C3: eleven requests from one IP to the endpoint limited by the strict
    tier (10 per 60 s), the first one opening a window and all arriving
    before it ends, none of them a POST, PUT or PATCH with an unreadable
    body (RequestLogger would throw on it first): the first ten answer 200 with X-RateLimit-Remaining
    9, 8, ..., 0; the eleventh answers 429 with a Retry-After header. *)
Theorem rate_limited_eleven (clientIP : string) (store : gmap string Entry)
    (r1 : Request) (e1 : Env) (rest : list (Request * Env)) :
  length rest = 10%nat ->
  Forall (fun p => ip (fst p) = clientIP /\ method (fst p) <> "OPTIONS" /\
                   body_read_fails (fst p) = false /\
                   now_ms (snd p) <= now_ms e1 + 60000) ((r1, e1) :: rest) ->
  match store !! RateLimit.key clientIP RateLimit.strict with
  | None => True
  | Some en => now_ms e1 > resetTime en
  end ->
  (forall i, (i < 10)%nat ->
     exists t, nth_error (Routes.serve_all Routes.rateLimited store ((r1, e1) :: rest)) i
                 = Some (Done t) /\
       status (resp t) = 200 /\
       resp_header "X-RateLimit-Remaining" t = Some (pretty (9 - Z.of_nat i))) /\
  (exists t, nth_error (Routes.serve_all Routes.rateLimited store ((r1, e1) :: rest)) 10
               = Some (Done t) /\
     status (resp t) = 429 /\ exists v, resp_header "Retry-After" t = Some v).
Proof.
  intros Hlen Hall Hfresh.
  apply Forall_cons_iff in Hall as [[Hip [Hm [Hbr _]]] Hrest]. simpl in Hip, Hm, Hbr.
  destruct (rate_limited_step r1 store e1 Hm Hbr) as [t [Ht [Hreq [Hok _]]]].
  rewrite Hip in Hreq, Hok.
  assert (Hb : RateLimit.bump (store !! RateLimit.key clientIP RateLimit.strict)
                 (now_ms e1) (RateLimit.limits RateLimit.strict)
               = mkEntry 1 (now_ms e1 + 60000)).
  { unfold RateLimit.bump.
    destruct (store !! RateLimit.key clientIP RateLimit.strict) as [en|]; [|reflexivity].
    assert (Hg : (now_ms e1 >? resetTime en) = true) by (apply Z.gtb_lt; lia).
    rewrite Hg. reflexivity. }
  rewrite Hb in Hreq, Hok. cbn [count] in Hok.
  assert (Hst : requests t !! RateLimit.key clientIP RateLimit.strict
                = Some (mkEntry 1 (now_ms e1 + 60000)))
    by (rewrite Hreq; apply lookup_insert_eq).
  pose proof (serve_from clientIP 1 (now_ms e1 + 60000) (requests t) rest Hst Hrest) as Hs.
  simpl. rewrite Ht. cbn [Routes.outcome_state]. split.
  - intros [|i] Hi.
    + exists t. split; [reflexivity|]. apply Hok. lia.
    + destruct (Hs i) as [t' [Hnth [Hok' _]]]; [lia|].
      exists t'. split; [exact Hnth|].
      replace (9 - Z.of_nat (S i)) with (10 - (1 + Z.of_nat i + 1)) by lia.
      apply Hok'. lia.
  - destruct (Hs 9%nat) as [t' [Hnth [_ Hrej]]]; [lia|].
    exists t'. split; [exact Hnth|]. apply Hrej. simpl. lia.
Qed.

(** ** FeatureFlag *)

Lemma rollout_bucket_bound (r : Request) :
  0 <= Z.rem (FeatureFlag.getUserRolloutId r) 100 < 100.
Proof.
  apply Z.rem_bound_pos; [|lia].
  unfold FeatureFlag.getUserRolloutId. apply Z.abs_nonneg.
Qed.







(** The gate denies on the rollout, whatever [next] is, exactly when the
    bucket is at or above the flag's percentage. *)
Lemma rollout_denial_iff (featureName : string) (f : FeatureFlag.Flag) (s : State) :
  assoc featureName FeatureFlag.features = Some f -> FeatureFlag.enabled f = true ->
  ((forall n, FeatureFlag.handle featureName s n =
              Done (status_json 403 (FeatureFlag.err_rollout featureName f) s)) <->
   (Z.rem (FeatureFlag.getUserRolloutId (req s)) 100 >=? FeatureFlag.rollout f) = true).
Proof.
  intros H He. unfold FeatureFlag.handle. rewrite H, He. cbn [negb].
  split.
  - intros Hall. destruct (_ >=? _); [reflexivity|]. exfalso.
    specialize (Hall (fun t => Threw t)).
    destruct (FeatureFlag.requiresAuth f && _).
    + apply (f_equal Routes.outcome_status) in Hall. discriminate Hall.
    + discriminate Hall.
  - intros E n. rewrite E. reflexivity.
Qed.

(** C6: two requests with the same IP and the same User-Agent get the same
    rollout id, and for every enabled flag the gate's rollout denial
    holds for one exactly when it holds for the other; nothing else of the
    request or its context enters the decision. *)
Theorem rollout_decision_deterministic (featureName : string) (s1 s2 : State) :
  ip (req s1) = ip (req s2) ->
  req_header "user-agent" (req s1) = req_header "user-agent" (req s2) ->
  FeatureFlag.getUserRolloutId (req s1) = FeatureFlag.getUserRolloutId (req s2) /\
  forall f, assoc featureName FeatureFlag.features = Some f ->
    FeatureFlag.enabled f = true ->
    ((forall n1, FeatureFlag.handle featureName s1 n1 =
                 Done (status_json 403 (FeatureFlag.err_rollout featureName f) s1)) <->
     (forall n2, FeatureFlag.handle featureName s2 n2 =
                 Done (status_json 403 (FeatureFlag.err_rollout featureName f) s2))).
Proof.
  intros Hip Hua.
  assert (Hid : FeatureFlag.getUserRolloutId (req s1) = FeatureFlag.getUserRolloutId (req s2))
    by (unfold FeatureFlag.getUserRolloutId; rewrite Hip, Hua; reflexivity).
  split; [exact Hid|].
  intros f H He. rewrite !rollout_denial_iff by assumption. rewrite Hid. reflexivity.
Qed.

(** ** ResponseTransformer *)

(** C5: the transformer attaches a generated request id to the context and
    the X-Request-ID header of the state [next] receives. A request whose
    content type names JSON and whose body cannot be read is refused before
    [next] with 400 and a body carrying the request id. Every other request
    runs [next]: a throwing chain gives 500 with the generic message and the
    meta {requestId, processingTime, timestamp}, and a chain that ends with
    an object body gives that body with a meta {requestId, processingTime,
    timestamp, version} merged in. *)
Theorem transformer_envelope (s : State) (next : Next) :
  let rid := ResponseTransformer.generateRequestId (env s) in
  let is_json := match req_header "content-type" (req s) with
                 | Some ct => DeviceDetector.includes "application/json" ct
                 | None => false end in
  exists s', c_requestId (ctx s') = Some rid /\ resp_header "X-Request-ID" s' = Some rid /\
    (is_json && body_throws (req s) = true ->
       exists t, ResponseTransformer.handle s next = Done t /\ status (resp t) = 400 /\
         resp_header "X-Request-ID" t = Some rid /\
         rbody (resp t) =
           Some (JObj [("error", JStr "Invalid JSON");
                       ("message", JStr "Request body contains malformed JSON");
                       ("requestId", JStr rid)])) /\
    (is_json && body_throws (req s) = false ->
     (forall t, next s' = Threw t ->
         exists t', ResponseTransformer.handle s next = Done t' /\
           status (resp t') = 500 /\
           rbody (resp t') =
             Some (JObj [("error", JStr "Internal Server Error");
                         ("message", JStr "An error occurred while processing your request");
                         ("meta", JObj [("requestId", JStr rid);
                                        ("processingTime", JStr (elapsed (env s) ++ "ms"));
                                        ("timestamp", JStr (iso_now (env s)))])])) /\
      (forall t fs, next s' = Done t -> body_fields t = Some fs ->
         exists t', ResponseTransformer.handle s next = Done t' /\
           status (resp t') = status (resp t) /\
           rbody (resp t') =
             Some (JObj (obj_set "meta"
                           (JObj [("requestId", JStr rid);
                                  ("processingTime", JStr (elapsed (env s) ++ "ms"));
                                  ("timestamp", JStr (iso_now (env s)));
                                  ("version", JStr "1.0.0")]) fs)))).
Proof.
  intros rid is_json.
  exists (header "X-Request-ID" rid
            (set_ctx (mkContext (c_user (ctx s)) (c_isAdmin (ctx s))
                        (c_adminPermissions (ctx s)) (c_feature (ctx s))
                        (c_device (ctx s)) (Some rid)) s)).
  split; [reflexivity|]. split; [apply resp_header_eq|].
  unfold ResponseTransformer.handle. fold rid. fold is_json.
  split.
  - intros Hj. rewrite Hj. eexists. split; [reflexivity|]. split; [reflexivity|].
    split; [|reflexivity].
    unfold status_json. rewrite resp_header_set_json, resp_header_set_status.
    apply resp_header_eq.
  - intros Hj. rewrite Hj. split.
    + intros t Ht. rewrite Ht. eexists. split; [reflexivity|]. split; reflexivity.
    + intros t fs Ht Hb. rewrite Ht.
      assert (Hb' : body_fields (header "X-Server" "AdonisJS-Middleware-Demo"
                     (header "X-Processing-Time" (elapsed (env s) ++ "ms") t)) = Some fs)
        by exact Hb.
      cbv zeta. rewrite Hb'. eexists. split; [reflexivity|]. split; reflexivity.
Qed.

(** ** Cors *)

Ltac header_values :=
  repeat first
    [ rewrite resp_header_eq
    | rewrite resp_header_ne by discriminate ].

Lemma cors_set_headers (s : State) :
  status (resp (Cors.setCorsHeaders s)) = status (resp s) /\
  rbody (resp (Cors.setCorsHeaders s)) = rbody (resp s) /\
  cors_headers_ok (req_header "origin" (req s)) s (Cors.setCorsHeaders s).
Proof.
  unfold Cors.setCorsHeaders, cors_headers_ok.
  destruct (req_header "origin" (req s)) as [o|].
  - unfold truthy. destruct (String.eqb o "") eqn:E; cbn [negb andb].
    + repeat split; header_values; reflexivity.
    + destruct (existsb (String.eqb o) Cors.allowedOrigins);
        repeat split; header_values; reflexivity.
  - repeat split; header_values; reflexivity.
Qed.

Lemma cors_disallowed_origin_no_header :
  Routes.outcome_status (Routes.protected (Routes.start evil_origin_request ∅ sample_env))
    = Some 200 /\
  resp_header "Access-Control-Allow-Origin"
    (Routes.outcome_state (Routes.protected (Routes.start evil_origin_request ∅ sample_env)))
    = None.
Proof. vm_compute. split; reflexivity. Qed.

(** C8 (amended): an OPTIONS request gets 204 with the CORS headers and
    Access-Control-Max-Age 86400 without running [next]. Any other
    method runs [next]; a throw passes through untouched, and a completed
    response keeps its status and body and gets Allow-Methods,
    Allow-Headers and Allow-Credentials; Allow-Origin is set to the origin
    of the request (the same request object throughout the chain)
    when it is in the static allow list, to "*" when the origin is missing
    or empty, and is not set for any other origin. *)
Theorem cors_preflight_and_after (s : State) :
  (method (req s) = "OPTIONS" ->
     exists t, (forall next, Cors.handle s next = Done t) /\
       status (resp t) = 204 /\
       resp_header "Access-Control-Max-Age" t = Some "86400" /\
       cors_headers_ok (req_header "origin" (req s)) s t) /\
  (method (req s) <> "OPTIONS" -> forall next,
     (forall t, next s = Threw t -> Cors.handle s next = Threw t) /\
     (forall t, next s = Done t ->
        exists t', Cors.handle s next = Done t' /\
          status (resp t') = status (resp t) /\ rbody (resp t') = rbody (resp t) /\
          cors_headers_ok (req_header "origin" (req t)) t t')).
Proof.
  split.
  - intros Hm.
    exists (status_json 204 (JStr "")
              (header "Access-Control-Max-Age" "86400" (Cors.setCorsHeaders s))).
    split; [intros next; unfold Cors.handle; rewrite Hm; reflexivity|].
    split; [reflexivity|].
    split; [apply resp_header_eq|].
    destruct (cors_set_headers s) as [_ [_ [H1 [H2 [H3 H4]]]]].
    unfold cors_headers_ok, status_json.
    rewrite !resp_header_set_json, !resp_header_set_status.
    repeat split; rewrite resp_header_ne by discriminate; assumption.
  - intros Hm next. apply String.eqb_neq in Hm.
    unfold Cors.handle. rewrite Hm. split.
    + intros t Ht. rewrite Ht. reflexivity.
    + intros t Ht. rewrite Ht. exists (Cors.setCorsHeaders t). split; [reflexivity|].
      destruct (cors_set_headers t) as [S1 [B1 H]]. split; [exact S1|]. split; [exact B1|].
      exact H.
Qed.

(** ** Instances of the theorems with hypotheses *)

Lemma rate_limited_eleven_witness :
  length rl_rest = 10%nat /\
  Forall (fun p => ip (fst p) = "127.0.0.1" /\ method (fst p) <> "OPTIONS" /\
                   body_read_fails (fst p) = false /\
                   now_ms (snd p) <= now_ms (rl_env 0) + 60000) ((rl_request, rl_env 0) :: rl_rest) /\
  ((forall i, (i < 10)%nat ->
     exists t, nth_error (Routes.serve_all Routes.rateLimited ∅ ((rl_request, rl_env 0) :: rl_rest)) i
                 = Some (Done t) /\
       status (resp t) = 200 /\
       resp_header "X-RateLimit-Remaining" t = Some (pretty (9 - Z.of_nat i))) /\
   (exists t, nth_error (Routes.serve_all Routes.rateLimited ∅ ((rl_request, rl_env 0) :: rl_rest)) 10
               = Some (Done t) /\
     status (resp t) = 429 /\ exists v, resp_header "Retry-After" t = Some v)).
Proof.
  assert (Hall : Forall (fun p => ip (fst p) = "127.0.0.1" /\ method (fst p) <> "OPTIONS" /\
                   body_read_fails (fst p) = false /\
                   now_ms (snd p) <= now_ms (rl_env 0) + 60000) ((rl_request, rl_env 0) :: rl_rest)).
  { repeat constructor; cbn; try discriminate; lia. }
  split; [reflexivity|]. split; [exact Hall|].
  apply (rate_limited_eleven "127.0.0.1" ∅ rl_request (rl_env 0) rl_rest);
    [reflexivity | exact Hall | exact I].
Defined.

Lemma rate_limit_frame_witness :
  ("10.0.0.2", RateLimit.generous) <>
    (ip (req (Routes.start rl_request shared_store (rl_env 0))), RateLimit.strict) /\
  shared_store !! RateLimit.key "127.0.0.1" RateLimit.strict =
    Some (mkEntry 10 (now_ms (rl_env 0) + 30000)) /\
  shared_store !! RateLimit.key "10.0.0.2" RateLimit.generous =
    Some (mkEntry 7 (now_ms (rl_env 0) + 100000)) /\
  exists s', requests s' !! RateLimit.key "10.0.0.2" RateLimit.generous =
             requests (Routes.start rl_request shared_store (rl_env 0))
               !! RateLimit.key "10.0.0.2" RateLimit.generous /\
    rl_ends (RateLimit.handle RateLimit.strict (Routes.start rl_request shared_store (rl_env 0))
               DemoController.rateLimited)
            DemoController.rateLimited s'.
Proof.
  assert (Hne : ("10.0.0.2", RateLimit.generous) <>
                (ip (req (Routes.start rl_request shared_store (rl_env 0))), RateLimit.strict))
    by (cbn; discriminate).
  split; [exact Hne|].
  split; [vm_compute; reflexivity|].
  split; [vm_compute; reflexivity|].
  apply (rate_limit_frame RateLimit.strict (Routes.start rl_request shared_store (rl_env 0))
           DemoController.rateLimited "10.0.0.2" RateLimit.generous Hne).
Defined.

Lemma rollout_decision_deterministic_witness :
  ip (req (Routes.start ua_request_a ∅ sample_env)) = ip (req (Routes.start ua_request_b ∅ sample_env)) /\
  req_header "user-agent" (req (Routes.start ua_request_a ∅ sample_env)) =
    req_header "user-agent" (req (Routes.start ua_request_b ∅ sample_env)) /\
  assoc "beta-features" FeatureFlag.features = Some (FeatureFlag.mkFlag true 50 false) /\
  (FeatureFlag.getUserRolloutId ua_request_a = FeatureFlag.getUserRolloutId ua_request_b /\
   forall f, assoc "beta-features" FeatureFlag.features = Some f ->
    FeatureFlag.enabled f = true ->
    ((forall n1, FeatureFlag.handle "beta-features" (Routes.start ua_request_a ∅ sample_env) n1 =
                 Done (status_json 403 (FeatureFlag.err_rollout "beta-features" f)
                         (Routes.start ua_request_a ∅ sample_env))) <->
     (forall n2, FeatureFlag.handle "beta-features" (Routes.start ua_request_b ∅ sample_env) n2 =
                 Done (status_json 403 (FeatureFlag.err_rollout "beta-features" f)
                         (Routes.start ua_request_b ∅ sample_env))))).
Proof.
  split; [reflexivity|]. split; [reflexivity|]. split; [reflexivity|].
  apply (rollout_decision_deterministic "beta-features"
           (Routes.start ua_request_a ∅ sample_env) (Routes.start ua_request_b ∅ sample_env));
    reflexivity.
Defined.

(** * Further properties of the middleware, the controller and the routes *)

(** ** Object spread *)

(** [{ ...obj, k: v }] then reading [k] gives [v]; every other key reads as
    before, so the spread keeps the body's other fields. *)
Theorem obj_set_lookup (k : string) (v : json) (fs : list (string * json)) :
  assoc k (obj_set k v fs) = Some v /\
  forall k', k' <> k -> assoc k' (obj_set k v fs) = assoc k' fs.
Proof.
  split.
  - induction fs as [|[k0 v0] fs IH]; simpl.
    + rewrite String.eqb_refl. reflexivity.
    + destruct (String.eqb k k0) eqn:E; simpl.
      * rewrite String.eqb_refl. reflexivity.
      * rewrite E. exact IH.
  - intros k' Hne. apply String.eqb_neq in Hne.
    induction fs as [|[k0 v0] fs IH]; simpl.
    + rewrite Hne. reflexivity.
    + destruct (String.eqb k k0) eqn:E; simpl.
      * apply String.eqb_eq in E. subst k0. rewrite Hne. reflexivity.
      * destruct (String.eqb k' k0); [reflexivity | exact IH].
Qed.

(** ** Base-36 request-id timestamps *)

Lemma digit36_value (d : Z) : 0 <= d < 36 ->
  digit_value (ResponseTransformer.digit36 d) = d /\
  is_digit36 (ResponseTransformer.digit36 d) = true.
Proof.
  intros Hd. unfold ResponseTransformer.digit36, digit_value, is_digit36.
  destruct (d <? 10)%Z eqn:E.
  - apply Z.ltb_lt in E.
    rewrite nat_ascii_embedding by lia.
    split.
    + assert (Hk : (Z.of_nat (48 + Z.to_nat d) <? 58)%Z = true) by (apply Z.ltb_lt; lia).
      rewrite Hk. lia.
    + apply orb_true_intro. left. apply andb_true_intro.
      split; apply Nat.leb_le; lia.
  - apply Z.ltb_ge in E.
    rewrite nat_ascii_embedding by lia.
    split.
    + assert (Hk : (Z.of_nat (97 + Z.to_nat (d - 10)) <? 58)%Z = false)
        by (apply Z.ltb_ge; lia).
      rewrite Hk. lia.
    + apply orb_true_intro. right. apply andb_true_intro.
      split; apply Nat.leb_le; lia.
Qed.

Lemma base36_go_parse (fuel : nat) : forall n acc,
  0 <= n < 36 ^ Z.of_nat fuel ->
  parseInt36 (ResponseTransformer.base36_go fuel n acc) = parse36_from n acc /\
  all_chars is_digit36 (ResponseTransformer.base36_go fuel n acc) = all_chars is_digit36 acc.
Proof.
  unfold parseInt36.
  induction fuel as [|f IH]; intros n acc Hn.
  - simpl in Hn. assert (n = 0) as -> by lia. split; reflexivity.
  - cbn [ResponseTransformer.base36_go].
    pose proof (Z.mod_pos_bound n 36 ltac:(lia)) as Hm.
    destruct (digit36_value (n mod 36) Hm) as [Hv Hd].
    destruct (n <? 36)%Z eqn:E.
    + apply Z.ltb_lt in E. simpl. rewrite Hv, Hd. split; [|reflexivity].
      rewrite Z.mod_small by lia. reflexivity.
    + apply Z.ltb_ge in E.
      rewrite Nat2Z.inj_succ, Z.pow_succ_r in Hn by lia.
      destruct (IH (n / 36) (String (ResponseTransformer.digit36 (n mod 36)) acc))
        as [IH1 IH2].
      { split; [apply Z.div_pos; lia|]. apply Z.div_lt_upper_bound; lia. }
      rewrite IH1, IH2. simpl. rewrite Hv, Hd. split; [|reflexivity].
      rewrite Z.mul_comm, <- Z.div_mod by lia. reflexivity.
Qed.

(** [n.toString(36)] is read back by [parseInt(_, 36)] as [n], and uses
    only the digits 0-9 and a-z, for every non-negative [n] (the
    [Date.now()] part of a request id). *)
Theorem toString36_roundtrip (n : Z) :
  0 <= n ->
  parseInt36 (ResponseTransformer.toString36 n) = n /\
  all_chars is_digit36 (ResponseTransformer.toString36 n) = true.
Proof.
  intros Hn. unfold ResponseTransformer.toString36.
  destruct (base36_go_parse (S (Z.to_nat (Z.log2 n))) n "") as [H1 H2].
  - split; [exact Hn|].
    rewrite Nat2Z.inj_succ, Z2Nat.id by apply Z.log2_nonneg.
    destruct (Z.eq_dec n 0) as [->|Hn0]; [vm_compute; reflexivity|].
    destruct (Z.log2_spec n) as [_ Hlt]; [lia|].
    rewrite <- Z.add_1_r in Hlt |- *.
    eapply Z.lt_le_trans; [exact Hlt|].
    apply Z.pow_le_mono_l. split; [lia|lia].
  - rewrite H1, H2. split; reflexivity.
Qed.

(** ** DeviceDetector.parseUserAgent *)

Lemma substring_prefix (m : nat) (u : string) :
  String.length (String.substring 0 m u) = Nat.min m (String.length u) /\
  String.prefix (String.substring 0 m u) u = true.
Proof.
  revert m. induction u as [|c u IH]; intros [|m]; simpl; try (split; reflexivity).
  destruct (IH m) as [H1 H2]. rewrite H1, H2. split; [reflexivity|].
  destruct (ascii_dec c c); [reflexivity | congruence].
Qed.

Lemma android_not_mobile_includes (u : string) :
  DeviceDetector.android_not_mobile u = true -> DeviceDetector.includes "android" u = true.
Proof.
  induction u as [|c u IH]; simpl; [discriminate|].
  intros H. apply orb_true_iff in H as [H|H].
  - apply andb_true_iff in H as [H _]. rewrite H. reflexivity.
  - rewrite IH by exact H. apply orb_true_r.
Qed.

(** The parsed device record: the type is one of four values, [isMobile]
    and [isTablet] agree with it, and the recorded User-Agent is the
    first [min 100 (length)] characters of the header. *)
Theorem parseUserAgent_shape (userAgent iso : string) :
  let d := DeviceDetector.parseUserAgent userAgent iso in
  In (d_type d) ["mobile"; "tablet"; "tv"; "desktop"] /\
  d_isMobile d = String.eqb (d_type d) "mobile" /\
  d_isTablet d = String.eqb (d_type d) "tablet" /\
  String.length (d_userAgent d) = Nat.min 100 (String.length userAgent) /\
  String.prefix (d_userAgent d) userAgent = true /\
  d_parsed_at d = iso.
Proof.
  cbv zeta. unfold DeviceDetector.parseUserAgent. cbn [d_type d_isMobile d_isTablet d_userAgent d_parsed_at].
  destruct (substring_prefix 100 userAgent) as [H1 H2].
  split; [|split; [reflexivity|split; [reflexivity|split; [exact H1|split; [exact H2|reflexivity]]]]].
  repeat match goal with |- context [if ?b then _ else _] => destruct b end;
    simpl; tauto.
Qed.

(** The device type is "mobile" exactly when the lower-cased User-Agent
    contains one of the mobile keywords, and "tablet" exactly when it
    contains none of them but contains "tablet" or "ipad": the
    [android(?!.*mobile)] alternative of the tablet test never decides,
    since every User-Agent containing "android" is already mobile. *)
Theorem parseUserAgent_type (userAgent iso : string) :
  let d := DeviceDetector.parseUserAgent userAgent iso in
  let ua := DeviceDetector.toLowerCase userAgent in
  (d_type d = "mobile" <-> DeviceDetector.includes_any mobile_words ua = true) /\
  (d_type d = "tablet" <->
     DeviceDetector.includes_any mobile_words ua = false /\
     DeviceDetector.includes_any ["tablet"; "ipad"] ua = true).
Proof.
  cbv zeta. unfold DeviceDetector.parseUserAgent. cbn [d_type].
  unfold mobile_words.
  destruct (DeviceDetector.includes_any
              ["mobile"; "android"; "iphone"; "ipod"; "blackberry"; "iemobile"; "opera mini"]
              (DeviceDetector.toLowerCase userAgent)) eqn:Em.
  - split; split; intros H; try reflexivity; try discriminate; destruct H; discriminate.
  - assert (Ha : DeviceDetector.android_not_mobile (DeviceDetector.toLowerCase userAgent) = false).
    { destruct (DeviceDetector.android_not_mobile _) eqn:E; [|reflexivity].
      apply android_not_mobile_includes in E.
      unfold DeviceDetector.includes_any in Em. simpl in Em. rewrite E in Em.
      rewrite orb_true_r in Em. discriminate. }
    rewrite Ha, orb_false_r.
    destruct (DeviceDetector.includes_any ["tablet"; "ipad"] _).
    + split; split; intros H; try reflexivity; try discriminate; try tauto;
        destruct H; discriminate.
    + split; split; intros H; try discriminate; try (destruct H; discriminate);
        revert H; repeat match goal with |- context [if ?b then _ else _] => destruct b end;
        discriminate.
Qed.

(** ** FeatureFlag.getUserRolloutId *)

Lemma toInt32_range (x : Z) : - 2 ^ 31 <= FeatureFlag.toInt32 x < 2 ^ 31.
Proof.
  unfold FeatureFlag.toInt32.
  pose proof (Z.mod_pos_bound (x + 2 ^ 31) (2 ^ 32) ltac:(lia)). lia.
Qed.

Lemma hash_string_range (seed : string) : forall h,
  - 2 ^ 31 <= h < 2 ^ 31 -> - 2 ^ 31 <= FeatureFlag.hash_string h seed < 2 ^ 31.
Proof.
  induction seed as [|c seed IH]; intros h Hh; simpl; [exact Hh|].
  apply IH. unfold FeatureFlag.hash_step. apply toInt32_range.
Qed.

(** The rollout id is the absolute value of a 32-bit signed hash: it lies
    between 0 and 2^31, so its remainder modulo 100 is a bucket 0..99. *)
Theorem rollout_id_range (r : Request) :
  0 <= FeatureFlag.getUserRolloutId r <= 2 ^ 31 /\
  0 <= Z.rem (FeatureFlag.getUserRolloutId r) 100 < 100.
Proof.
  split; [|apply rollout_bucket_bound].
  unfold FeatureFlag.getUserRolloutId.
  match goal with |- context [FeatureFlag.hash_string 0 ?sd] =>
    pose proof (hash_string_range sd 0 ltac:(lia)) end.
  lia.
Qed.

(** ** RateLimit responses *)

(** When a request finds no entry or an expired one (now > resetTime),
    it is let through whatever the stored count was: [next] runs with
    X-RateLimit-Remaining [limit - 1], X-RateLimit-Reset [now + windowMs]
    and the entry restarted at count 1. *)
Theorem rate_limit_window_reset (t : RateLimit.LimitType) (s : State) (next : Next) :
  let k := RateLimit.key (ip (req s)) t in
  let l := RateLimit.limits t in
  let now := now_ms (env s) in
  match requests s !! k with None => True | Some en => now > resetTime en end ->
  exists s', RateLimit.handle t s next = next s' /\
    resp_header "X-RateLimit-Remaining" s' = Some (pretty (RateLimit.lrequests l - 1)) /\
    resp_header "X-RateLimit-Reset" s' = Some (pretty (now + RateLimit.windowMs l)) /\
    requests s' !! k = Some (mkEntry 1 (now + RateLimit.windowMs l)).
Proof.
  intros k l now Hexp.
  assert (Hb : RateLimit.bump (requests s !! k) now l = mkEntry 1 (now + RateLimit.windowMs l)).
  { unfold RateLimit.bump. destruct (requests s !! k) as [en|]; [|reflexivity].
    assert (E : (now >? resetTime en) = true) by (apply Z.gtb_lt; lia).
    rewrite E. reflexivity. }
  unfold RateLimit.handle. fold k l now. rewrite Hb. cbn [count resetTime].
  assert (E : (1 >? RateLimit.lrequests l) = false)
    by (rewrite Z.gtb_ltb; apply Z.ltb_ge; unfold l; destruct t; cbn; lia).
  rewrite E. eexists. split; [reflexivity|].
  split; [read_header; reflexivity|]. split; [read_header; reflexivity|].
  apply lookup_insert_eq.
Qed.

Lemma ceil_div1000_bound (x w : Z) :
  0 <= x <= w -> 0 <= RateLimit.ceil_div1000 x <= - ((- w) / 1000).
Proof.
  intros Hx. unfold RateLimit.ceil_div1000.
  pose proof (Z.div_le_mono (- w) (- x) 1000 ltac:(lia) ltac:(lia)).
  pose proof (Z.div_le_mono (- x) 0 1000 ltac:(lia) ltac:(lia)).
  rewrite Z.div_0_l in * by lia. lia.
Qed.

(** The rate-limit headers stay in range, provided the stored entry of
    the key has a non-negative count and a reset time at most one window
    ahead (as the handler itself writes them): a request let through gets
    X-RateLimit-Limit [limit], X-RateLimit-Remaining between 0 and
    [limit - 1] and X-RateLimit-Reset between now and now + windowMs; a
    rejected one gets 429, X-RateLimit-Remaining 0 and a Retry-After
    between 0 and windowMs / 1000 seconds, without running [next]. *)
Theorem rate_limit_header_bounds (t : RateLimit.LimitType) (s : State) (next : Next) :
  let k := RateLimit.key (ip (req s)) t in
  let L := RateLimit.lrequests (RateLimit.limits t) in
  let W := RateLimit.windowMs (RateLimit.limits t) in
  let now := now_ms (env s) in
  (forall en, requests s !! k = Some en -> 0 <= count en /\ resetTime en <= now + W) ->
  (exists s' m r, RateLimit.handle t s next = next s' /\
     0 <= m < L /\ now <= r <= now + W /\
     resp_header "X-RateLimit-Limit" s' = Some (pretty L) /\
     resp_header "X-RateLimit-Remaining" s' = Some (pretty m) /\
     resp_header "X-RateLimit-Reset" s' = Some (pretty r)) \/
  (exists s' secs, (forall next', RateLimit.handle t s next' = Done s') /\
     status (resp s') = 429 /\
     resp_header "X-RateLimit-Remaining" s' = Some "0" /\
     resp_header "Retry-After" s' = Some (pretty secs) /\
     0 <= secs <= W / 1000).
Proof.
  intros k L W now Hst.
  set (en := RateLimit.bump (requests s !! k) now (RateLimit.limits t)).
  assert (Hen : 1 <= count en /\ now <= resetTime en <= now + W).
  { unfold en, RateLimit.bump.
    destruct (requests s !! k) as [e0|] eqn:Ek; cbn [count resetTime]; [|unfold W; destruct t; cbn; lia].
    destruct (Hst e0 eq_refl) as [Hc Hr].
    destruct (now >? resetTime e0) eqn:E; cbn [count resetTime]; [unfold W; destruct t; cbn; lia|].
    rewrite Z.gtb_ltb, Z.ltb_ge in E. lia. }
  assert (HW : - ((- W) / 1000) = W / 1000) by (unfold W; destruct t; reflexivity).
  assert (HL : 1 <= L) by (unfold L; destruct t; cbn; lia).
  unfold RateLimit.handle. fold k now. fold en.
  destruct (count en >? RateLimit.lrequests (RateLimit.limits t)) eqn:E.
  - right. apply Z.gtb_lt in E.
    eexists. exists (RateLimit.ceil_div1000 (resetTime en - now)).
    split; [intros next'; reflexivity|]. split; [reflexivity|].
    split; [unfold status_json; read_header; reflexivity|].
    split; [unfold status_json; read_header; reflexivity|].
    rewrite <- HW. apply ceil_div1000_bound. lia.
  - left. rewrite Z.gtb_ltb, Z.ltb_ge in E.
    eexists. exists (RateLimit.lrequests (RateLimit.limits t) - count en), (resetTime en).
    split; [reflexivity|]. split; [fold L in E |- *; lia|]. split; [exact (proj2 Hen)|].
    split; [read_header; reflexivity|].
    split; read_header; reflexivity.
Qed.

(** ** The global middleware on every route *)

Lemma globals_keep_body (t : State) :
  rbody (resp (Cors.setCorsHeaders (SecurityHeaders.add_headers t))) = rbody (resp t) /\
  ctx (Cors.setCorsHeaders (SecurityHeaders.add_headers t)) = ctx t.
Proof.
  unfold Cors.setCorsHeaders.
  destruct (req_header "origin" _) as [o|];
    [destruct (_ && _); [|destruct (negb _)]|]; split; reflexivity.
Qed.

Lemma not_cors_key (k : string) :
  In k ["X-Frame-Options"; "X-Content-Type-Options"; "X-XSS-Protection";
        "Referrer-Policy"; "Content-Security-Policy"; "Strict-Transport-Security";
        "Permissions-Policy"; "X-Powered-By"; "X-Request-ID"; "X-Device-Type";
        "X-Feature-Flag"; "X-RateLimit-Remaining"; "Retry-After"; "Access-Control-Max-Age"] ->
  ~ In k cors_keys.
Proof.
  simpl. intros H H'.
  repeat destruct H as [<-|H]; try contradiction;
    simpl in H'; repeat destruct H' as [H'|H']; try discriminate; exact H'.
Qed.

Lemma not_security_key (k : string) :
  In k ["X-Request-ID"; "X-Device-Type"; "X-Feature-Flag"; "X-RateLimit-Remaining";
        "Retry-After"] ->
  ~ In k security_keys.
Proof.
  simpl. intros H H'.
  repeat destruct H as [<-|H]; try contradiction;
    simpl in H'; repeat destruct H' as [H'|H']; try discriminate; exact H'.
Qed.

(** A POST, PUT or PATCH whose body cannot be read makes RequestLogger, the
    first global middleware, throw on every route before anything else
    runs. Every other non-OPTIONS request: a response that the route's
    middleware and handler complete carries the eight security headers and
    the CORS method, header and credential headers, with the status and
    body the route produced; a thrown error passes through the global
    middleware untouched. *)
Theorem route_global_headers (named : list Middleware) (h : Next) (s : State) :
  method (req s) <> "OPTIONS" ->
  (body_read_fails (req s) = true -> Routes.route named h s = Threw s) /\
  (body_read_fails (req s) = false ->
  (forall t, chain named h s = Threw t -> Routes.route named h s = Threw t) /\
  (forall t, chain named h s = Done t ->
     exists t', Routes.route named h s = Done t' /\
       status (resp t') = status (resp t) /\ rbody (resp t') = rbody (resp t) /\
       Forall (fun kv => resp_header (fst kv) t' = Some (snd kv))
         [("X-Frame-Options", "DENY");
          ("X-Content-Type-Options", "nosniff");
          ("X-XSS-Protection", "1; mode=block");
          ("Referrer-Policy", "strict-origin-when-cross-origin");
          ("Content-Security-Policy", "default-src 'self'");
          ("Strict-Transport-Security", "max-age=31536000; includeSubDomains");
          ("Permissions-Policy", "geolocation=(), microphone=(), camera=()");
          ("X-Powered-By", "AdonisJS-Middleware-Demo");
          ("Access-Control-Allow-Methods", "GET, POST, PUT, DELETE, PATCH, OPTIONS");
          ("Access-Control-Allow-Headers",
             "Content-Type, Authorization, X-Requested-With, Accept, Origin");
          ("Access-Control-Allow-Credentials", "true")])).
Proof.
  intros Hm. split; [apply route_logger_throws|]. intros Hb. split.
  - intros t Ht. rewrite route_unfold, Ht by assumption. reflexivity.
  - intros t Ht. rewrite route_unfold, Ht by assumption. cbn [after].
    eexists. split; [reflexivity|].
    destruct (keeps_cors (SecurityHeaders.add_headers t)) as [S1 [_ H1]].
    destruct (keeps_security t) as [S2 _].
    destruct (globals_keep_body t) as [B _].
    destruct (cors_set_headers (SecurityHeaders.add_headers t)) as [_ [_ [C1 [C2 [C3 _]]]]].
    split; [congruence|]. split; [exact B|].
    repeat constructor; cbn [fst snd];
      try (rewrite H1 by (apply not_cors_key; simpl; tauto);
           unfold SecurityHeaders.add_headers; read_header; reflexivity);
      assumption.
Qed.

(** An OPTIONS request to any route is answered 204 by the CORS
    middleware whatever the route: the route's own middleware (Auth, the
    rate limiter, the feature gate) and its handler never run, the
    rate-limit table and the request context stay as they were, and none
    of the security headers is added. *)
Theorem route_preflight (s : State) :
  method (req s) = "OPTIONS" ->
  exists t, (forall named h, Routes.route named h s = Done t) /\
    status (resp t) = 204 /\ requests t = requests s /\ ctx t = ctx s /\
    forall k, In k security_keys -> resp_header k t = resp_header k s.
Proof.
  intros Hm.
  exists (status_json 204 (JStr "")
            (header "Access-Control-Max-Age" "86400" (Cors.setCorsHeaders s))).
  split.
  - intros named h. unfold Routes.route, chain. rewrite fold_right_app. simpl.
    unfold RequestLogger, Cors.handle, body_read_fails. rewrite Hm. reflexivity.
  - split; [reflexivity|].
    destruct (keeps_cors s) as [_ [R1 H1]].
    split; [exact R1|].
    split; [unfold Cors.setCorsHeaders; destruct (req_header "origin" _) as [o|];
            [destruct (_ && _); [|destruct (negb _)]|]; reflexivity|].
    intros k Hk. unfold status_json.
    rewrite resp_header_set_json, resp_header_set_status.
    rewrite resp_header_ne.
    + apply H1. intros Hc. simpl in Hk, Hc.
      repeat destruct Hc as [<-|Hc]; try contradiction;
        repeat destruct Hk as [Hk|Hk]; try discriminate; exact Hk.
    + intros ->. simpl in Hk. repeat destruct Hk as [Hk|Hk]; try discriminate; exact Hk.
Qed.

(** ** Auth *)

(** Where Auth takes the token from: a non-empty Authorization header wins,
    so a header that is not a valid token (with or without "Bearer ") is
    refused with 401 even when the [token] parameter holds a valid token;
    the parameter is read only when the header is missing or empty; and
    each valid token is accepted both bare and as "Bearer <token>". *)
Theorem auth_token_sources (s : State) (next : Next) :
  (forall h, req_header "authorization" (req s) = Some h -> h <> "" ->
     ~ In (replace_first "Bearer " "" h) Auth.validTokens ->
     Auth.handle s next = Done (status_json 401 Auth.err_invalid s)) /\
  (truthy (req_header "authorization" (req s)) = false ->
     forall tok, req_input "token" (req s) = Some (JStr tok) -> In tok Auth.validTokens ->
     Auth.handle s next = next (with_user (Auth.getUserFromToken tok) s)) /\
  (forall tok, In tok Auth.validTokens ->
     forall h, req_header "authorization" (req s) = Some h ->
     h = tok \/ h = "Bearer " ++ tok ->
     Auth.handle s next = next (with_user (Auth.getUserFromToken tok) s)).
Proof.
  split; [|split].
  - intros h Hh Hne Hin.
    exact (proj1 (proj2 (auth_token_cases s next)) h
             (auth_token_header (req s) h Hh Hne) Hne Hin).
  - intros Ht tok Hi Hin.
    destruct (valid_token_forms tok Hin) as [F1 [_ [F3 _]]].
    assert (Hj : auth_token (req s) = Some (JStr tok))
      by (rewrite auth_token_input by exact Ht; exact Hi).
    rewrite (proj1 (auth_token_cases s next) tok Hj F3) by (rewrite F1; exact Hin).
    rewrite F1. reflexivity.
  - intros tok Hin h Hh Hform.
    destruct (valid_token_forms tok Hin) as [F1 [F2 [F3 F4]]].
    assert (Hne : h <> "") by (destruct Hform; subst; assumption).
    assert (Hc : replace_first "Bearer " "" h = tok) by (destruct Hform; subst; assumption).
    rewrite (proj1 (auth_token_cases s next) h (auth_token_header (req s) h Hh Hne) Hne)
      by (rewrite Hc; exact Hin).
    rewrite Hc. reflexivity.
Qed.

(** ** FeatureFlag *)

Lemma ff_pass (featureName : string) (f : FeatureFlag.Flag) (s : State) (next : Next) :
  assoc featureName FeatureFlag.features = Some f ->
  FeatureFlag.enabled f = true ->
  Z.rem (FeatureFlag.getUserRolloutId (req s)) 100 < FeatureFlag.rollout f ->
  (FeatureFlag.requiresAuth f = false \/ c_user (ctx s) <> None) ->
  FeatureFlag.handle featureName s next =
  after (next (feature_ctx featureName f s)) (fun t =>
    header "X-Feature-Rollout" (pretty (FeatureFlag.rollout f))
      (header "X-Feature-Enabled" "true" (header "X-Feature-Flag" featureName t))).
Proof.
  intros H He Hr Ha. unfold FeatureFlag.handle. rewrite H, He. cbn [negb].
  assert (E : (Z.rem (FeatureFlag.getUserRolloutId (req s)) 100 >=? FeatureFlag.rollout f)
              = false) by (rewrite Z.geb_leb; apply Z.leb_gt; lia).
  rewrite E.
  assert (Hb : FeatureFlag.requiresAuth f &&
               match c_user (ctx s) with None => true | Some _ => false end = false).
  { destruct Ha as [Ha|Hu]; [rewrite Ha; reflexivity|].
    destruct (c_user (ctx s)); [apply andb_false_r | congruence]. }
  rewrite Hb. reflexivity.
Qed.


(** The beta endpoint (flag "beta-features", 50% rollout) answers 200
    exactly to the clients whose rollout bucket is below 50 and 403 to all
    others. *)
Theorem beta_route_split (r : Request) (store : gmap string Entry) (e : Env) :
  method r <> "OPTIONS" -> body_read_fails r = false ->
  Routes.outcome_status (Routes.beta (Routes.start r store e)) =
  Some (if (Z.rem (FeatureFlag.getUserRolloutId r) 100 <? 50)%Z then 200 else 403).
Proof.
  intros Hm Hb. unfold Routes.beta.
  rewrite route_unfold, status_after_globals by assumption.
  cbn [chain fold_right]. unfold FeatureFlag.handle. simpl.
  destruct (Z.rem (FeatureFlag.getUserRolloutId r) 100 <? 50)%Z eqn:E.
  - apply Z.ltb_lt in E.
    assert (E' : (Z.rem (FeatureFlag.getUserRolloutId r) 100 >=? 50) = false)
      by (rewrite Z.geb_leb; apply Z.leb_gt; lia).
    rewrite E'. reflexivity.
  - apply Z.ltb_ge in E.
    assert (E' : (Z.rem (FeatureFlag.getUserRolloutId r) 100 >=? 50) = true)
      by (apply Z.geb_le; lia).
    rewrite E'. reflexivity.
Qed.

(** ** Routes *)

Lemma route_done_body (named : list Middleware) (h : Next) (s t : State) :
  method (req s) <> "OPTIONS" -> body_read_fails (req s) = false -> chain named h s = Done t ->
  exists t', Routes.route named h s = Done t' /\
    status (resp t') = status (resp t) /\ rbody (resp t') = rbody (resp t) /\
    requests t' = requests t /\
    forall k, ~ In k cors_keys -> ~ In k security_keys ->
      resp_header k t' = resp_header k t.
Proof.
  intros Hm Hb Hc. rewrite route_unfold, Hc by assumption. cbn [after].
  eexists; split; [reflexivity|].
  destruct (globals_after_keeps t) as [S1 [R1 H1]].
  destruct (globals_keep_body t) as [B1 _].
  split; [exact S1|]. split; [exact B1|]. split; [exact R1|exact H1].
Qed.

Ltac route_key :=
  first [ apply not_cors_key; simpl; tauto | apply not_security_key; simpl; tauto ].

(** The error endpoint, a GET route: the handler's exception is caught by
    the response transformer, so the route answers 500 with the generic
    error envelope, unless the transformer already refused a JSON content
    type whose body cannot be read with 400; either response carries the
    X-Request-ID of the request. *)
Theorem error_route_envelope (r : Request) (store : gmap string Entry) (e : Env) :
  method r = "GET" ->
  let rid := ResponseTransformer.generateRequestId e in
  let is_json := match req_header "content-type" r with
                 | Some ct => DeviceDetector.includes "application/json" ct
                 | None => false end in
  exists t, Routes.error (Routes.start r store e) = Done t /\
    resp_header "X-Request-ID" t = Some rid /\
    (if is_json && body_throws r then status (resp t) = 400
     else status (resp t) = 500 /\
          rbody (resp t) = Some (ResponseTransformer.error_envelope rid e)).
Proof.
  intros Hm rid is_json.
  assert (Hm' : method (req (Routes.start r store e)) <> "OPTIONS")
    by (cbn [Routes.start req]; rewrite Hm; discriminate).
  assert (Hb' : body_read_fails (req (Routes.start r store e)) = false)
    by exact (body_read_get r Hm).
  unfold Routes.error.
  destruct (is_json && body_throws r) eqn:E.
  - edestruct (route_done_body [ResponseTransformer.handle] DemoController.error
                 (Routes.start r store e)) as [t' [-> [S1 [B1 [_ H1]]]]];
      [exact Hm'|exact Hb'| |].
    + cbn [chain fold_right]. unfold ResponseTransformer.handle. cbn [Routes.start req env].
      fold is_json. rewrite E. reflexivity.
    + exists t'. split; [reflexivity|].
      rewrite S1, H1 by route_key. split; [|reflexivity].
      unfold status_json. read_header. reflexivity.
  - edestruct (route_done_body [ResponseTransformer.handle] DemoController.error
                 (Routes.start r store e)) as [t' [-> [S1 [B1 [_ H1]]]]];
      [exact Hm'|exact Hb'| |].
    + cbn [chain fold_right]. unfold ResponseTransformer.handle. cbn [Routes.start req env].
      fold is_json. rewrite E. reflexivity.
    + exists t'. split; [reflexivity|].
      rewrite S1, B1, H1 by route_key.
      split; [unfold status_json; read_header; reflexivity|].
      split; reflexivity.
Qed.

(** On /demo/create (a POST route) a body that cannot be read makes
    RequestLogger throw before Auth and the rate limiter run, with the
    rate-limit table untouched. With a readable body Auth runs before the
    default-tier rate limiter: a request Auth refuses gets 401, and one
    whose token is a truthy non-string makes Auth throw; both leave the
    rate-limit table as it was, so they use up none of the client's quota.
    An authenticated request updates exactly the entry of its
    (IP, "default") key and gets 201 or 429. *)
Theorem create_route_auth_before_limit (r : Request) (store : gmap string Entry) (e : Env) :
  method r = "POST" ->
  let o := Routes.create (Routes.start r store e) in
  (body_throws r = true -> o = Threw (Routes.start r store e)) /\
  (body_throws r = false ->
     (Routes.outcome_status o = Some 401 /\ requests (Routes.outcome_state o) = store) \/
     (o = Threw (Routes.start r store e) /\
        exists v, req_input "token" r = Some v /\ forall t, v <> JStr t) \/
     (requests (Routes.outcome_state o) =
        <[RateLimit.key (ip r) RateLimit.default :=
            RateLimit.bump (store !! RateLimit.key (ip r) RateLimit.default) (now_ms e)
              (RateLimit.limits RateLimit.default)]> store /\
      (Routes.outcome_status o = Some 201 \/ Routes.outcome_status o = Some 429))).
Proof.
  intros Hm o. unfold o, Routes.create. split.
  - intros Hbt. apply route_logger_throws.
    cbn [Routes.start req]. rewrite body_read_post by exact Hm. exact Hbt.
  - intros Hbt.
    assert (Hm' : method (req (Routes.start r store e)) <> "OPTIONS")
      by (cbn [Routes.start req]; rewrite Hm; discriminate).
    assert (Hb' : body_read_fails (req (Routes.start r store e)) = false)
      by (cbn [Routes.start req]; rewrite body_read_post by exact Hm; exact Hbt).
    rewrite route_unfold by assumption. cbn [chain fold_right].
    destruct (auth_split (Routes.start r store e))
      as [[b [_ Hb]]|[[u [_ Hu]]|[v [Hv [_ [Hs Hn]]]]]].
    + left. rewrite Hb. cbn [after Routes.outcome_status Routes.outcome_state].
      destruct (globals_after_keeps (status_json 401 b (Routes.start r store e)))
        as [S1 [R1 _]].
      rewrite S1, R1. split; reflexivity.
    + right; right. rewrite Hu.
      destruct (rate_limit_table_req RateLimit.default (with_user u (Routes.start r store e))
                  DemoController.create)
        as [s' [Hs' [Hq [_ [_ [Ho|[s'' [Ho [Hr H429]]]]]]]]];
        rewrite Ho.
      * unfold DemoController.create. rewrite Hq. cbn [with_user set_ctx req Routes.start].
        rewrite Hbt. cbn [after Routes.outcome_status Routes.outcome_state].
        match goal with |- context [SecurityHeaders.add_headers ?x] =>
          destruct (globals_after_keeps x) as [S1 [R1 _]] end.
        rewrite S1, R1. split; [exact Hs' | left; reflexivity].
      * cbn [after Routes.outcome_status Routes.outcome_state].
        destruct (globals_after_keeps s'') as [S1 [R1 _]]. rewrite S1, R1, Hr, H429.
        split; [exact Hs' | right; reflexivity].
    + right; left. rewrite Hn. split; [reflexivity|].
      exists v. split; [exact (auth_token_nonstr r v Hv Hs) | exact Hs].
Qed.

Lemma route_preflight_status (named : list Middleware) (h : Next) (s : State) :
  method (req s) = "OPTIONS" -> Routes.outcome_status (Routes.route named h s) = Some 204.
Proof.
  intros Hm. unfold Routes.route, chain. rewrite fold_right_app. simpl.
  unfold RequestLogger, Cors.handle, body_read_fails. rewrite Hm. reflexivity.
Qed.

(** Every 201 of /demo/create names an authenticated mock user in
    [created_by], never "anonymous", and echoes the request body in
    [created_data]. *)
Theorem create_route_created_by (r : Request) (store : gmap string Entry) (e : Env)
    (t : State) :
  Routes.create (Routes.start r store e) = Done t -> status (resp t) = 201 ->
  exists u, In u [Auth.john; Auth.jane; Auth.demo] /\
    rbody (resp t) = Some (JObj [
      ("message", JStr "Data created successfully");
      ("created_data", body r);
      ("created_by", JStr (name u));
      ("created_at", JStr (iso_now e))]).
Proof.
  intros Ht H201. unfold Routes.create in Ht.
  destruct (String.eq_dec (method r) "OPTIONS") as [Hm|Hm].
  { pose proof (route_preflight_status [Auth.handle; RateLimit.handle RateLimit.default]
                  DemoController.create (Routes.start r store e) Hm) as Hp.
    rewrite Ht in Hp. cbn in Hp. congruence. }
  destruct (body_read_fails r) eqn:Hbr.
  { rewrite route_logger_throws in Ht by exact Hbr. discriminate. }
  assert (Hm' : method (req (Routes.start r store e)) <> "OPTIONS") by exact Hm.
  assert (Hb' : body_read_fails (req (Routes.start r store e)) = false) by exact Hbr.
  rewrite route_unfold in Ht by assumption. cbn [chain fold_right] in Ht.
  destruct (auth_split (Routes.start r store e))
    as [[b [_ Hb]]|[[u [Hin Hu]]|[v [_ [_ [_ Hn]]]]]].
  - rewrite Hb in Ht. cbn [after] in Ht. injection Ht as <-.
    destruct (globals_after_keeps (status_json 401 b (Routes.start r store e))) as [S1 _].
    rewrite S1 in H201. discriminate.
  - exists u. split; [exact Hin|]. rewrite Hu in Ht.
    unfold RateLimit.handle in Ht.
    destruct (count _ >? _) in Ht.
    + cbn [after] in Ht. injection Ht as <-.
      match type of H201 with context [SecurityHeaders.add_headers ?x] =>
        destruct (globals_after_keeps x) as [S1 _] end.
      rewrite S1 in H201. discriminate.
    + unfold DemoController.create in Ht.
      cbn [req with_user set_ctx set_requests header set_resp Routes.start] in Ht.
      destruct (body_throws r); cbn [after] in Ht; [discriminate|].
      injection Ht as <-.
      match goal with |- context [SecurityHeaders.add_headers ?x] =>
        destruct (globals_keep_body x) as [B1 _] end.
      rewrite B1. reflexivity.
  - rewrite Hn in Ht. cbn [after] in Ht. discriminate.
Qed.

(** On /demo/admin/create (a POST route) a body that cannot be read makes
    RequestLogger throw before Auth and Admin run. With a readable body the
    response transformer is the last middleware: a valid token of a
    non-admin user is refused by Admin with 403 before the transformer
    runs, so that response has no X-Request-ID; the admin token gets 201
    with an X-Request-ID. *)
Theorem admin_create_order (r : Request) (store : gmap string Entry) (e : Env) (tok : string) :
  method r = "POST" -> In tok Auth.validTokens ->
  req_header "authorization" r = Some ("Bearer " ++ tok) ->
  (body_throws r = true ->
     Routes.admin_create (Routes.start r store e) = Threw (Routes.start r store e)) /\
  (body_throws r = false -> tok <> "admin-token-456" ->
     exists t, Routes.admin_create (Routes.start r store e) = Done t /\
       status (resp t) = 403 /\ resp_header "X-Request-ID" t = None) /\
  (body_throws r = false -> tok = "admin-token-456" ->
     exists t, Routes.admin_create (Routes.start r store e) = Done t /\
       status (resp t) = 201 /\
       resp_header "X-Request-ID" t = Some (ResponseTransformer.generateRequestId e)).
Proof.
  intros Hm Hin Hh.
  assert (Hm' : method (req (Routes.start r store e)) <> "OPTIONS")
    by (cbn [Routes.start req]; rewrite Hm; discriminate).
  destruct (valid_token_forms tok Hin) as [_ [F2 [_ F4]]].
  assert (Ha : forall next, Auth.handle (Routes.start r store e) next =
                 next (with_user (Auth.getUserFromToken tok) (Routes.start r store e))).
  { intros next.
    rewrite (proj1 (auth_token_cases (Routes.start r store e) next) ("Bearer " ++ tok)
               (auth_token_header r _ Hh F4) F4) by (rewrite F2; exact Hin).
    rewrite F2. reflexivity. }
  unfold Routes.admin_create. split; [|split].
  - intros Hb. apply route_logger_throws.
    cbn [Routes.start req]. rewrite body_read_post by exact Hm. exact Hb.
  - intros Hb Hne.
    assert (Hb' : body_read_fails (req (Routes.start r store e)) = false)
      by (cbn [Routes.start req]; rewrite body_read_post by exact Hm; exact Hb).
    assert (Hr : role (Auth.getUserFromToken tok) <> "admin").
    { simpl in Hin. destruct Hin as [<-|[<-|[<-|[]]]]; [discriminate|congruence|discriminate]. }
    edestruct (route_done_body [Auth.handle; Admin.handle; ResponseTransformer.handle]
                 DemoController.create (Routes.start r store e)) as [t' [-> [S1 [_ [_ H1]]]]];
      [exact Hm'|exact Hb'| |].
    + cbn [chain fold_right]. rewrite Ha. unfold Admin.handle. cbn [with_user set_ctx ctx c_user].
      apply String.eqb_neq in Hr. rewrite Hr. reflexivity.
    + eexists. split; [reflexivity|]. rewrite S1, H1 by route_key. split; reflexivity.
  - intros Hb ->.
    assert (Hb' : body_read_fails (req (Routes.start r store e)) = false)
      by (cbn [Routes.start req]; rewrite body_read_post by exact Hm; exact Hb).
    edestruct (route_done_body [Auth.handle; Admin.handle; ResponseTransformer.handle]
                 DemoController.create (Routes.start r store e)) as [t' [-> [S1 [_ [_ H1]]]]];
      [exact Hm'|exact Hb'| |].
    + cbn [chain fold_right]. rewrite Ha. unfold Admin.handle. cbn [with_user set_ctx ctx c_user].
      cbn. unfold ResponseTransformer.handle.
      cbn [with_user set_ctx header set_resp req Routes.start].
      rewrite Hb, andb_false_r.
      unfold DemoController.create. cbn [with_user set_ctx header set_resp req Routes.start].
      rewrite Hb. reflexivity.
    + eexists. split; [reflexivity|]. rewrite S1, H1 by route_key.
      split; [reflexivity|]. unfold set_json. read_header. reflexivity.
Qed.

(** The premium routes run Auth before the "premium-features" gate, so the
    gate's own 401 (the flag requires a user) never fires there: a GET to
    the dashboard gets Auth's 401 (no token, or an invalid one), or Auth's
    throw on a truthy token that is not a string, or, once authenticated,
    the X-Feature-Flag header of the premium flag with 200, or with the
    response transformer's 400 when a JSON content type comes with a body
    that cannot be read. *)
Theorem premium_auth_first (r : Request) (store : gmap string Entry) (e : Env) :
  method r = "GET" ->
  let o := Routes.premium_dashboard (Routes.start r store e) in
  let is_json := match req_header "content-type" r with
                 | Some ct => DeviceDetector.includes "application/json" ct
                 | None => false end in
  (Routes.outcome_status o = Some 401 /\
     (rbody (resp (Routes.outcome_state o)) = Some Auth.err_no_token \/
      rbody (resp (Routes.outcome_state o)) = Some Auth.err_invalid)) \/
  (o = Threw (Routes.start r store e) /\
     exists v, req_input "token" r = Some v /\ forall t, v <> JStr t) \/
  (Routes.outcome_status o = Some (if is_json && body_throws r then 400 else 200) /\
     resp_header "X-Feature-Flag" (Routes.outcome_state o) = Some "premium-features").
Proof.
  intros Hm o is_json. unfold o, Routes.premium_dashboard, Routes.premium.
  assert (Hm' : method (req (Routes.start r store e)) <> "OPTIONS")
    by (cbn [Routes.start req]; rewrite Hm; discriminate).
  assert (Hb' : body_read_fails (req (Routes.start r store e)) = false)
    by exact (body_read_get r Hm).
  destruct (auth_split (Routes.start r store e))
    as [[b [Hbody Hrej]]|[[u [_ Hu]]|[v [Hv [_ [Hs Hn]]]]]].
  - left.
    edestruct (route_done_body
                 [Auth.handle; FeatureFlag.handle "premium-features"; ResponseTransformer.handle]
                 DemoController.multipleMiddleware (Routes.start r store e))
      as [t' [-> [S1 [B1 _]]]]; [exact Hm'|exact Hb'| |].
    + cbn [chain fold_right]. rewrite Hrej. reflexivity.
    + cbn [Routes.outcome_status Routes.outcome_state]. rewrite S1, B1.
      split; [reflexivity|]. destruct Hbody as [->| ->]; [left|right]; reflexivity.
  - right; right.
    assert (Hf : assoc "premium-features" FeatureFlag.features =
                 Some (FeatureFlag.mkFlag true 100 true)) by reflexivity.
    pose proof (rollout_bucket_bound (req (with_user u (Routes.start r store e)))) as Hr.
    destruct (is_json && body_throws r) eqn:E;
    (edestruct (route_done_body
                 [Auth.handle; FeatureFlag.handle "premium-features"; ResponseTransformer.handle]
                 DemoController.multipleMiddleware (Routes.start r store e))
      as [t' [-> [S1 [_ [_ H1]]]]]; [exact Hm'|exact Hb'| |];
     [ cbn [chain fold_right]; rewrite Hu;
       rewrite (ff_pass "premium-features" (FeatureFlag.mkFlag true 100 true)
                  (with_user u (Routes.start r store e)) _ Hf eq_refl)
         by (try (right; discriminate); cbn [FeatureFlag.rollout]; lia);
       unfold ResponseTransformer.handle;
       cbn [feature_ctx with_user set_ctx header set_resp req Routes.start];
       fold is_json; rewrite E; reflexivity
     | cbn [Routes.outcome_status Routes.outcome_state]; rewrite S1, H1 by route_key;
       split; [reflexivity|]; read_header; reflexivity ]).
  - right; left. rewrite route_unfold by assumption. cbn [chain fold_right].
    rewrite Hn. split; [reflexivity|].
    exists v. split; [exact (auth_token_nonstr r v Hv Hs) | exact Hs].
Qed.

(** The device endpoint answers 200 with X-Device-Type set to the parsed
    device type and the parsed device record in [device_detection]; the
    content is the mobile variant, and the body carries
    [mobile_optimized: true] and [device_info], exactly when the User-Agent
    (empty when the header is missing) is parsed as mobile. *)
Theorem device_route_response (r : Request) (store : gmap string Entry) (e : Env) :
  method r <> "OPTIONS" -> body_read_fails r = false ->
  let d := DeviceDetector.parseUserAgent
             (match req_header "user-agent" r with Some u => u | None => "" end) (iso_now e) in
  exists t fs, Routes.device (Routes.start r store e) = Done t /\
    status (resp t) = 200 /\
    resp_header "X-Device-Type" t = Some (d_type d) /\
    rbody (resp t) = Some (JObj fs) /\
    assoc "device_detection" fs = Some (DeviceDetector.device_json d) /\
    assoc "optimized_content" fs =
      Some (if d_isMobile d
            then JObj [("layout", JStr "mobile"); ("images", JStr "compressed");
                       ("js", JStr "minimal")]
            else JObj [("layout", JStr "desktop"); ("images", JStr "full-res");
                       ("js", JStr "complete")]) /\
    assoc "mobile_optimized" fs = (if d_isMobile d then Some (JBool true) else None) /\
    assoc "device_info" fs =
      (if d_isMobile d then Some (DeviceDetector.device_json d) else None).
Proof.
  intros Hm Hb d.
  assert (Hm' : method (req (Routes.start r store e)) <> "OPTIONS") by exact Hm.
  assert (Hb' : body_read_fails (req (Routes.start r store e)) = false) by exact Hb.
  assert (Hmob : d_isMobile d = String.eqb (d_type d) "mobile") by reflexivity.
  unfold Routes.device.
  edestruct (route_done_body [DeviceDetector.handle] DemoController.deviceAware
               (Routes.start r store e)) as [t' [-> [S1 [B1 [_ H1]]]]];
    [exact Hm'|exact Hb'| |].
  - cbn [chain fold_right]. unfold DeviceDetector.handle. fold d. reflexivity.
  - cbn [Routes.start req env DemoController.deviceAware ctx c_device set_json
         header set_resp set_ctx] in S1, B1, H1.
    fold d in S1, B1, H1. clearbody d.
    exists t'. rewrite S1, B1, (H1 "X-Device-Type") by route_key.
    rewrite Hmob. destruct (String.eqb (d_type d) "mobile") eqn:E;
      eexists; (split; [reflexivity|]).
    + split; [reflexivity|].
      split; [read_header; reflexivity|].
      split; [reflexivity|]. cbn. rewrite ?Hmob, ?E. repeat split.
    + split; [reflexivity|].
      split; [read_header; reflexivity|].
      split; [reflexivity|]. cbn. rewrite ?Hmob, ?E. repeat split.
Qed.

Lemma toString36_roundtrip_witness :
  0 <= 1700000000000 /\
  parseInt36 (ResponseTransformer.toString36 1700000000000) = 1700000000000 /\
  all_chars is_digit36 (ResponseTransformer.toString36 1700000000000) = true.
Proof.
  split; [lia|]. apply (toString36_roundtrip 1700000000000). lia.
Defined.

Lemma rate_limit_window_reset_witness :
  let s := Routes.start rl_request expired_store (rl_env 0) in
  match requests s !! RateLimit.key (ip (req s)) RateLimit.default with
  | None => True | Some en => now_ms (env s) > resetTime en end /\
  exists s', RateLimit.handle RateLimit.default s DemoController.rateLimited =
             DemoController.rateLimited s' /\
    resp_header "X-RateLimit-Remaining" s' = Some (pretty (100 - 1)) /\
    resp_header "X-RateLimit-Reset" s' = Some (pretty (now_ms (env s) + 900000)) /\
    requests s' !! RateLimit.key (ip (req s)) RateLimit.default =
      Some (mkEntry 1 (now_ms (env s) + 900000)).
Proof.
  intros s.
  assert (H : match requests s !! RateLimit.key (ip (req s)) RateLimit.default with
              | None => True | Some en => now_ms (env s) > resetTime en end)
    by (vm_compute; reflexivity).
  split; [exact H|].
  exact (rate_limit_window_reset RateLimit.default s DemoController.rateLimited H).
Defined.

Lemma rate_limit_header_bounds_witness :
  let s := Routes.start rl_request full_strict_store (rl_env 0) in
  let k := RateLimit.key (ip (req s)) RateLimit.strict in
  (forall en, requests s !! k = Some en ->
     0 <= count en /\ resetTime en <= now_ms (env s) + 60000) /\
  ((exists s' m r, RateLimit.handle RateLimit.strict s DemoController.rateLimited =
                     DemoController.rateLimited s' /\
     0 <= m < 10 /\ now_ms (env s) <= r <= now_ms (env s) + 60000 /\
     resp_header "X-RateLimit-Limit" s' = Some (pretty 10) /\
     resp_header "X-RateLimit-Remaining" s' = Some (pretty m) /\
     resp_header "X-RateLimit-Reset" s' = Some (pretty r)) \/
  (exists s' secs, (forall next', RateLimit.handle RateLimit.strict s next' = Done s') /\
     status (resp s') = 429 /\
     resp_header "X-RateLimit-Remaining" s' = Some "0" /\
     resp_header "Retry-After" s' = Some (pretty secs) /\
     0 <= secs <= 60000 / 1000)).
Proof.
  intros s k.
  assert (H : forall en, requests s !! k = Some en ->
                0 <= count en /\ resetTime en <= now_ms (env s) + 60000).
  { intros en Hen. vm_compute in Hen. injection Hen as <-. cbn. lia. }
  split; [exact H|].
  exact (rate_limit_header_bounds RateLimit.strict s DemoController.rateLimited H).
Defined.

Lemma route_global_headers_witness :
  let s := Routes.start rl_request ∅ (rl_env 0) in
  method (req s) <> "OPTIONS" /\
  (body_read_fails (req s) = true -> Routes.route [] DemoController.public s = Threw s) /\
  (body_read_fails (req s) = false ->
  (forall t, chain [] DemoController.public s = Threw t ->
     Routes.route [] DemoController.public s = Threw t) /\
  (forall t, chain [] DemoController.public s = Done t ->
     exists t', Routes.route [] DemoController.public s = Done t' /\
       status (resp t') = status (resp t) /\ rbody (resp t') = rbody (resp t) /\
       Forall (fun kv => resp_header (fst kv) t' = Some (snd kv))
         [("X-Frame-Options", "DENY");
          ("X-Content-Type-Options", "nosniff");
          ("X-XSS-Protection", "1; mode=block");
          ("Referrer-Policy", "strict-origin-when-cross-origin");
          ("Content-Security-Policy", "default-src 'self'");
          ("Strict-Transport-Security", "max-age=31536000; includeSubDomains");
          ("Permissions-Policy", "geolocation=(), microphone=(), camera=()");
          ("X-Powered-By", "AdonisJS-Middleware-Demo");
          ("Access-Control-Allow-Methods", "GET, POST, PUT, DELETE, PATCH, OPTIONS");
          ("Access-Control-Allow-Headers",
             "Content-Type, Authorization, X-Requested-With, Accept, Origin");
          ("Access-Control-Allow-Credentials", "true")])).
Proof.
  intros s.
  assert (H : method (req s) <> "OPTIONS") by (cbn; discriminate).
  split; [exact H|].
  exact (route_global_headers [] DemoController.public s H).
Defined.

Lemma route_preflight_witness :
  let s := Routes.start preflight_request ∅ sample_env in
  method (req s) = "OPTIONS" /\
  exists t, (forall named h, Routes.route named h s = Done t) /\
    status (resp t) = 204 /\ requests t = requests s /\ ctx t = ctx s /\
    forall k, In k security_keys -> resp_header k t = resp_header k s.
Proof.
  intros s.
  assert (H : method (req s) = "OPTIONS") by reflexivity.
  split; [exact H|].
  exact (route_preflight s H).
Defined.

Lemma beta_route_split_witness :
  method ua_request_a <> "OPTIONS" /\ body_read_fails ua_request_a = false /\
  Routes.outcome_status (Routes.beta (Routes.start ua_request_a ∅ sample_env)) =
  Some (if (Z.rem (FeatureFlag.getUserRolloutId ua_request_a) 100 <? 50)%Z then 200 else 403).
Proof.
  assert (H : method ua_request_a <> "OPTIONS") by (cbn; discriminate).
  assert (Hb : body_read_fails ua_request_a = false) by reflexivity.
  split; [exact H|]. split; [exact Hb|].
  exact (beta_route_split ua_request_a ∅ sample_env H Hb).
Defined.

Lemma error_route_envelope_witness :
  method error_request = "GET" /\
  exists t, Routes.error (Routes.start error_request ∅ sample_env) = Done t /\
    resp_header "X-Request-ID" t = Some (ResponseTransformer.generateRequestId sample_env) /\
    (if match req_header "content-type" error_request with
        | Some ct => DeviceDetector.includes "application/json" ct
        | None => false end && body_throws error_request
     then status (resp t) = 400
     else status (resp t) = 500 /\
          rbody (resp t) = Some (ResponseTransformer.error_envelope
                                   (ResponseTransformer.generateRequestId sample_env) sample_env)).
Proof.
  assert (H : method error_request = "GET") by reflexivity.
  split; [exact H|].
  exact (error_route_envelope error_request ∅ sample_env H).
Defined.

Lemma create_route_auth_before_limit_witness :
  method user_create_request = "POST" /\
  let o := Routes.create (Routes.start user_create_request ∅ sample_env) in
  (body_throws user_create_request = true -> o = Threw (Routes.start user_create_request ∅ sample_env)) /\
  (body_throws user_create_request = false ->
     (Routes.outcome_status o = Some 401 /\ requests (Routes.outcome_state o) = ∅) \/
     (o = Threw (Routes.start user_create_request ∅ sample_env) /\
        exists v, req_input "token" user_create_request = Some v /\ forall t, v <> JStr t) \/
     (requests (Routes.outcome_state o) =
        <[RateLimit.key (ip user_create_request) RateLimit.default :=
            RateLimit.bump ((∅ : gmap string Entry) !!
                              RateLimit.key (ip user_create_request) RateLimit.default)
              (now_ms sample_env) (RateLimit.limits RateLimit.default)]> (∅ : gmap string Entry) /\
      (Routes.outcome_status o = Some 201 \/ Routes.outcome_status o = Some 429))).
Proof.
  assert (H : method user_create_request = "POST") by reflexivity.
  split; [exact H|].
  exact (create_route_auth_before_limit user_create_request ∅ sample_env H).
Defined.

Lemma create_route_created_by_witness :
  let o := Routes.create (Routes.start user_create_request ∅ sample_env) in
  o = Done (Routes.outcome_state o) /\ status (resp (Routes.outcome_state o)) = 201 /\
  exists u, In u [Auth.john; Auth.jane; Auth.demo] /\
    rbody (resp (Routes.outcome_state o)) = Some (JObj [
      ("message", JStr "Data created successfully");
      ("created_data", body user_create_request);
      ("created_by", JStr (name u));
      ("created_at", JStr (iso_now sample_env))]).
Proof.
  intros o.
  assert (H1 : o = Done (Routes.outcome_state o)) by (vm_compute; reflexivity).
  assert (H2 : status (resp (Routes.outcome_state o)) = 201) by (vm_compute; reflexivity).
  split; [exact H1|]. split; [exact H2|].
  exact (create_route_created_by user_create_request ∅ sample_env (Routes.outcome_state o) H1 H2).
Defined.

Lemma admin_create_order_witness :
  method admin_create_request = "POST" /\ In "admin-token-456" Auth.validTokens /\
  req_header "authorization" admin_create_request = Some ("Bearer " ++ "admin-token-456") /\
  (body_throws admin_create_request = true ->
     Routes.admin_create (Routes.start admin_create_request ∅ sample_env) =
       Threw (Routes.start admin_create_request ∅ sample_env)) /\
  (body_throws admin_create_request = false -> "admin-token-456" <> "admin-token-456" ->
     exists t, Routes.admin_create (Routes.start admin_create_request ∅ sample_env) = Done t /\
       status (resp t) = 403 /\ resp_header "X-Request-ID" t = None) /\
  (body_throws admin_create_request = false -> "admin-token-456" = "admin-token-456" ->
     exists t, Routes.admin_create (Routes.start admin_create_request ∅ sample_env) = Done t /\
       status (resp t) = 201 /\
       resp_header "X-Request-ID" t = Some (ResponseTransformer.generateRequestId sample_env)).
Proof.
  assert (H1 : method admin_create_request = "POST") by reflexivity.
  assert (H2 : In "admin-token-456" Auth.validTokens) by (cbn; auto).
  assert (H3 : req_header "authorization" admin_create_request =
               Some ("Bearer " ++ "admin-token-456")) by (vm_compute; reflexivity).
  split; [exact H1|]. split; [exact H2|]. split; [exact H3|].
  exact (admin_create_order admin_create_request ∅ sample_env "admin-token-456" H1 H2 H3).
Defined.

Lemma premium_auth_first_witness :
  method premium_request = "GET" /\
  let o := Routes.premium_dashboard (Routes.start premium_request ∅ sample_env) in
  let is_json := match req_header "content-type" premium_request with
                 | Some ct => DeviceDetector.includes "application/json" ct
                 | None => false end in
  (Routes.outcome_status o = Some 401 /\
     (rbody (resp (Routes.outcome_state o)) = Some Auth.err_no_token \/
      rbody (resp (Routes.outcome_state o)) = Some Auth.err_invalid)) \/
  (o = Threw (Routes.start premium_request ∅ sample_env) /\
     exists v, req_input "token" premium_request = Some v /\ forall t, v <> JStr t) \/
  (Routes.outcome_status o = Some (if is_json && body_throws premium_request then 400 else 200) /\
     resp_header "X-Feature-Flag" (Routes.outcome_state o) = Some "premium-features").
Proof.
  assert (H1 : method premium_request = "GET") by reflexivity.
  split; [exact H1|].
  exact (premium_auth_first premium_request ∅ sample_env H1).
Defined.

Lemma device_route_response_witness :
  method user_create_request <> "OPTIONS" /\ body_read_fails user_create_request = false /\
  let d := DeviceDetector.parseUserAgent
             (match req_header "user-agent" user_create_request with
              | Some u => u | None => "" end) (iso_now sample_env) in
  exists t fs, Routes.device (Routes.start user_create_request ∅ sample_env) = Done t /\
    status (resp t) = 200 /\
    resp_header "X-Device-Type" t = Some (d_type d) /\
    rbody (resp t) = Some (JObj fs) /\
    assoc "device_detection" fs = Some (DeviceDetector.device_json d) /\
    assoc "optimized_content" fs =
      Some (if d_isMobile d
            then JObj [("layout", JStr "mobile"); ("images", JStr "compressed");
                       ("js", JStr "minimal")]
            else JObj [("layout", JStr "desktop"); ("images", JStr "full-res");
                       ("js", JStr "complete")]) /\
    assoc "mobile_optimized" fs = (if d_isMobile d then Some (JBool true) else None) /\
    assoc "device_info" fs =
      (if d_isMobile d then Some (DeviceDetector.device_json d) else None).
Proof.
  assert (H1 : method user_create_request <> "OPTIONS") by (cbn; discriminate).
  assert (H2 : body_read_fails user_create_request = false) by reflexivity.
  split; [exact H1|]. split; [exact H2|].
  exact (device_route_response user_create_request ∅ sample_env H1 H2).
Defined.
